(** * wiki-parser: a verification development for [run.py]

    The script fetches Wikipedia's top-pageviews data for a date range (one
    HTTP call per day), aggregates the most viewed articles with a group-by
    and saves a faceted chart.  This file embeds [run.py] function by
    function and states the properties of its specification over the
    embedding.

    What [run.py] calls but does not define is kept at arm's length:
    - [datetime.strptime], [datetime.now], the pandas timestamp parser and
      the network behind [requests.get] are fields of an environment [Env];
    - calendar arithmetic follows CPython's [datetime] module
      ([_ymd2ord], [_ord2ymd], [isoformat]);
    - the plotting calls are recorded as events carrying the arguments the
      script computes for them;
    - the events of a run are the requests, the lines the script prints and
      the figure it saves; the progress bar that [tqdm] redraws on stderr
      at a pace set by the clock is not among them. *)

From Stdlib Require Import ZArith List Bool Lia String Ascii QArith.
From Stdlib Require Import Permutation Sorted.
Import ListNotations.

Local Open Scope string_scope.
Local Open Scope list_scope.
Local Open Scope Z_scope.

(** ** Calendar dates, after CPython's [datetime.date] *)

Module Calendar.

Record date : Type := mkdate { year : Z; month : Z; day : Z }.

(** [-1] is a placeholder for indexing purposes. *)
Definition _DAYS_IN_MONTH : list Z :=
  [-1; 31; 28; 31; 30; 31; 30; 31; 31; 30; 31; 30; 31].

Fixpoint running_totals (dbm : Z) (dims : list Z) : list Z :=
  match dims with
  | [] => []
  | dim :: rest => dbm :: running_totals (dbm + dim) rest
  end.

Definition _DAYS_BEFORE_MONTH : list Z :=
  -1 :: running_totals 0 (tl _DAYS_IN_MONTH).

Definition index (table : list Z) (i : Z) : Z := nth (Z.to_nat i) table (-1).

Definition _is_leap (y : Z) : bool :=
  (y mod 4 =? 0) && (negb (y mod 100 =? 0) || (y mod 400 =? 0)).

Definition _days_before_year (year : Z) : Z :=
  let y := year - 1 in
  y * 365 + y / 4 - y / 100 + y / 400.

Definition _days_in_month (year month : Z) : Z :=
  if (month =? 2) && _is_leap year then 29 else index _DAYS_IN_MONTH month.

Definition _days_before_month (year month : Z) : Z :=
  index _DAYS_BEFORE_MONTH month
  + (if (2 <? month) && _is_leap year then 1 else 0).

Definition _ymd2ord (year month day : Z) : Z :=
  _days_before_year year + _days_before_month year month + day.

Definition _DI400Y : Z := _days_before_year 401.
Definition _DI100Y : Z := _days_before_year 101.
Definition _DI4Y : Z := _days_before_year 5.

Definition _ord2ymd (n0 : Z) : date :=
  let n := n0 - 1 in
  let n400 := n / _DI400Y in
  let n := n mod _DI400Y in
  let year := n400 * 400 + 1 in
  let n100 := n / _DI100Y in
  let n := n mod _DI100Y in
  let n4 := n / _DI4Y in
  let n := n mod _DI4Y in
  let n1 := n / 365 in
  let n := n mod 365 in
  let year := year + (n100 * 100 + n4 * 4 + n1) in
  if (n1 =? 4) || (n100 =? 4) then mkdate (year - 1) 12 31
  else
    let leapyear := (n1 =? 3) && (negb (n4 =? 24) || (n100 =? 3)) in
    let month := Z.shiftr (n + 50) 5 in
    let preceding :=
      index _DAYS_BEFORE_MONTH month
      + (if (2 <? month) && leapyear then 1 else 0) in
    if n <? preceding then
      let month := month - 1 in
      let preceding :=
        preceding
        - (index _DAYS_IN_MONTH month
           + (if (month =? 2) && leapyear then 1 else 0)) in
      mkdate year month (n - preceding + 1)
    else mkdate year month (n - preceding + 1).

Definition MINYEAR : Z := 1.
Definition MAXYEAR : Z := 9999.

(** The check made by the [date] constructor ([_check_date_fields]). *)
Definition valid_dateb (d : date) : bool :=
  (MINYEAR <=? year d) && (year d <=? MAXYEAR)
  && (1 <=? month d) && (month d <=? 12)
  && (1 <=? day d) && (day d <=? _days_in_month (year d) (month d)).

Definition valid_date (d : date) : Prop := valid_dateb d = true.

Definition toordinal (d : date) : Z := _ymd2ord (year d) (month d) (day d).

Definition fromordinal (n : Z) : date := _ord2ymd n.

(** [date.__lt__] and friends compare the [(year, month, day)] tuples. *)
Definition date_ltb (a b : date) : bool :=
  (year a <? year b)
  || ((year a =? year b)
      && ((month a <? month b)
          || ((month a =? month b) && (day a <? day b)))).

Definition date_eqb (a b : date) : bool :=
  (year a =? year b) && (month a =? month b) && (day a =? day b).

Definition date_leb (a b : date) : bool := date_ltb a b || date_eqb a b.
Definition date_gtb (a b : date) : bool := date_ltb b a.
Definition date_geb (a b : date) : bool := date_leb b a.

(** [(a - b).days] *)
Definition days_between (a b : date) : Z := toordinal a - toordinal b.

End Calendar.
Export Calendar.

(** ** Text formatting *)

Module Text.

Definition digit_char (d : Z) : ascii :=
  ascii_of_nat (48 + Z.to_nat d).

Fixpoint decimal_fuel (fuel : nat) (n : Z) : string :=
  match fuel with
  | O => EmptyString
  | S fuel' =>
      if n <? 10 then String (digit_char n) EmptyString
      else (decimal_fuel fuel' (n / 10)
            ++ String (digit_char (n mod 10)) EmptyString)%string
  end.

(** [str(n)] for an integer, and the [%d] conversion. *)
Definition str_int (n : Z) : string :=
  if n <? 0 then ("-" ++ decimal_fuel (S (Z.to_nat (Z.log2 (- n)))) (- n))%string
  else decimal_fuel (S (Z.to_nat (Z.log2 n))) n.

Fixpoint zeros (k : nat) : string :=
  match k with
  | O => EmptyString
  | S k' => String "0"%char (zeros k')
  end.

(** The [%0wd] conversion: zeros go between the sign and the digits. *)
Definition zero_pad (w : nat) (n : Z) : string :=
  let s := str_int n in
  if n <? 0 then
    ("-" ++ zeros (w - String.length s)
         ++ String.substring 1 (String.length s - 1) s)%string
  else (zeros (w - String.length s) ++ s)%string.

(** [date.isoformat], which is also [str(date)]: ["%04d-%02d-%02d"]. *)
Definition isoformat (d : date) : string :=
  (zero_pad 4 (year d) ++ "-" ++ zero_pad 2 (month d) ++ "-"
   ++ zero_pad 2 (day d))%string.

(** [strftime] directives used by the script.  [%Y] is the platform's
    conversion, which does not pad; [%m] and [%d] are two digits. *)
Definition strftime_Y (d : date) : string := str_int (year d).
Definition strftime_m (d : date) : string := zero_pad 2 (month d).
Definition strftime_d (d : date) : string := zero_pad 2 (day d).

(** [str] of a midnight [Timestamp]. *)
Definition str_timestamp (d : date) : string :=
  (strftime_Y d ++ "-" ++ strftime_m d ++ "-" ++ strftime_d d
   ++ " 00:00:00")%string.

End Text.
Export Text.

(** ** Module constants of [run.py] *)

Definition API_BASE_URL : string :=
  "https://wikimedia.org/api/rest_v1/metrics/pageviews/top".
Definition API_START_DATE : date := mkdate 2015 7 1.
Definition PROJECT : string := "en.wikipedia.org".
Definition ACCESS_MODE : string := "all-access".
Definition TOP_ARTICLES_COUNT : nat := 20.
Definition MAX_DAYS_RANGE : Z := 365.

(** ** What the script talks to *)

(** One entry of the [articles] array of the pageviews API. *)
Record api_article : Type :=
  mk_api_article { a_article : string; a_views : Z; a_rank : Z }.

(** The decoded body, typed after the API's schema.  An absent key is
    [None]; looking it up raises [KeyError]. *)
Record item : Type := mk_item { articles : option (list api_article) }.
Record document : Type := mk_document { items : option (list item) }.

Record response : Type := mk_response {
  status_code : Z;
  reason : string;
  (** [json()]: the decoded body, or the decoder's error message. *)
  json : string + document
}.

(** The exception classes the handlers of [fetch_daily_articles] tell
    apart; every other subclass of [Exception] is [OtherException]. *)
Inductive exception : Type :=
| Timeout (msg : string)
| ConnectionError (msg : string)
| OtherException (msg : string).

Definition exception_str (e : exception) : string :=
  match e with
  | Timeout m | ConnectionError m | OtherException m => m
  end.

Inductive outcome : Type :=
| Returned (r : response)
| Raised (e : exception).

Record Env : Type := mk_env {
  (** [datetime.strptime(s, '%Y%m%d').date()]; [None] is [ValueError]. *)
  strptime_Ymd : string -> option date;
  (** [datetime.now().date()] *)
  current_date : date;
  (** how pandas reads a range endpoint, as a normalized day; [None]
      when it raises *)
  to_timestamp : string -> option date;
  (** what [requests.get] does with a URL *)
  requests_get : string -> outcome
}.

(** ** Data frames *)

Record row : Type := mk_row {
  row_article : string;
  row_views : Z;
  row_rank : Z;
  row_date : date
}.

Definition DataFrame : Type := list row.

(** [article['date'] = date] *)
Definition set_date (d : date) (a : api_article) : row :=
  mk_row (a_article a) (a_views a) (a_rank a) d.

Definition date_eq_dec (a b : date) : {a = b} + {a <> b}.
Proof. decide equality; apply Z.eq_dec. Defined.

Section Sorting.
Context {A : Type} (leb : A -> A -> bool).

Fixpoint insert (x : A) (l : list A) : list A :=
  match l with
  | [] => [x]
  | y :: t => if leb x y then x :: y :: t else y :: insert x t
  end.

(** A stable sort: among equal keys the earlier element stays first. *)
Definition isort (l : list A) : list A := fold_right insert [] l.
End Sorting.

Definition series_sum (l : list Z) : Z := fold_right Z.add 0 l.

Definition series_max (l : list Z) : Z :=
  match l with
  | [] => 0
  | x :: t => fold_left Z.max t x
  end.

(** [df.groupby(key)['views'].agg()]: one entry per distinct key, keys in
    sorted order. *)
Definition groupby {K : Type} (K_eq_dec : forall a b : K, {a = b} + {a <> b})
    (leb : K -> K -> bool) (key : row -> K) (agg : list Z -> Z)
    (df : DataFrame) : list (K * Z) :=
  map (fun k =>
         (k, agg (map row_views
                    (filter (fun r => if K_eq_dec (key r) k then true else false)
                       df))))
      (isort leb (nodup K_eq_dec (map key df))).

Definition groupby_article := groupby string_dec String.leb row_article.
Definition groupby_date := groupby date_eq_dec date_leb row_date.

(** [Series.mean] of integers, as an exact fraction. *)
Definition series_mean (l : list Z) : Q :=
  Qmake (series_sum l) (Pos.of_nat (List.length l)).

(** [Series.nunique] *)
Definition nunique (l : list string) : nat :=
  List.length (nodup string_dec l).

(** [Series.nlargest(n)] with the default [keep='first']. *)
Definition nlargest {K : Type} (n : nat) (s : list (K * Z)) : list (K * Z) :=
  firstn n (isort (fun a b => snd b <=? snd a) s).

(** [Series.sort_values(ascending=False)] *)
Definition sort_values_desc {K : Type} (s : list (K * Z)) : list (K * Z) :=
  isort (fun a b => snd b <=? snd a) s.

(** [series.isin(values)] on one cell *)
Definition isin (values : list string) (x : string) : bool :=
  existsb (String.eqb x) values.

(** ** Events and the result of a run *)

Inductive locator : Type :=
| DayLocator (interval : Z)
| MonthLocator (interval : Z).

(** The headline numbers, as [process_data] returns them. *)
Definition metrics : Type := (option Z * option Q * option nat)%type.

(** The figure as it stands when it is saved.  [human_format] turns the
    two averages into floating-point text; the title keeps the numbers. *)
Record chart : Type := mk_chart {
  chart_data : DataFrame;
  col_order : list string;
  col_wrap : Z;
  title_period : string;
  title_metrics : metrics;
  date_format : string;
  major_locator : locator
}.

(** [Stderr] and [Stdout] are the lines of the script's own [print]
    calls. *)
Inductive event : Type :=
| HttpGet (url : string)
| Stderr (line : string)
| Stdout (line : string)
| SaveFig (fname : string) (fig : chart).

Inductive result (A : Type) : Type :=
| Ok (a : A)
| Raise (e : exception).
Arguments Ok {A} a.
Arguments Raise {A} e.

(** A computation: the events it emitted, and how it ended. *)
Definition M (A : Type) : Type := (list event * result A)%type.

Definition ret {A} (a : A) : M A := ([], Ok a).

Definition bind {A B} (c : M A) (k : A -> M B) : M B :=
  match c with
  | (ev, Ok a) => let (ev', r) := k a in (ev ++ ev', r)
  | (ev, Raise e) => (ev, Raise e)
  end.

Definition emit (e : event) : M unit := ([e], Ok tt).

Definition raise {A} (e : exception) : M A := ([], Raise e).

(** [try: c  except Exception as e: h e] *)
Definition try_except {A} (c : M A) (h : exception -> M A) : M A :=
  match c with
  | (ev, Ok a) => (ev, Ok a)
  | (ev, Raise e) => let (ev', r) := h e in (ev ++ ev', r)
  end.

Declare Scope run_scope.
Delimit Scope run_scope with run.
Notation "x <- c ;; k" := (bind c (fun x => k))
  (at level 100, c at next level, right associativity) : run_scope.
Notation "c ;;; k" := (bind c (fun _ => k))
  (at level 100, right associativity) : run_scope.

Definition events {A} (c : M A) : list event := fst c.
Definition outcome_of {A} (c : M A) : result A := snd c.

(** ** The script *)

Section Script.
Variable E : Env.
Local Open Scope run_scope.

(** *** [validate_dates] *)

Definition msg_invalid_format : string :=
  "Error: Invalid date format. Use YYYYMMDD".
Definition msg_not_before (current : date) : string :=
  ("Error: Dates must be strictly before " ++ isoformat current
   ++ " (no today or future dates)")%string.
Definition msg_end_not_after_start : string :=
  "Error: End date must be > start date".
Definition msg_before_api_start : string :=
  ("Error: Dates must be >= " ++ isoformat API_START_DATE)%string.
Definition msg_range_too_long : string :=
  ("Error: Date range must be <= " ++ str_int MAX_DAYS_RANGE ++ " days")%string.

Definition validate_dates (start_str end_str : string) : option string :=
  match strptime_Ymd E start_str, strptime_Ymd E end_str with
  | Some start_dt, Some end_dt =>
      let current_date := current_date E in
      if date_geb start_dt current_date || date_geb end_dt current_date
      then Some (msg_not_before current_date)
      else if date_leb end_dt start_dt
      then Some msg_end_not_after_start
      else if date_ltb start_dt API_START_DATE
      then Some msg_before_api_start
      else if MAX_DAYS_RANGE <? days_between end_dt start_dt
      then Some msg_range_too_long
      else None
  | _, _ => Some msg_invalid_format
  end.

(** *** [fetch_daily_articles] *)

Definition fetch_url (date : date) : string :=
  (API_BASE_URL ++ "/" ++ PROJECT ++ "/" ++ ACCESS_MODE ++ "/"
   ++ strftime_Y date ++ "/" ++ strftime_m date ++ "/"
   ++ strftime_d date)%string.

(** [requests.get(url, ...)] *)
Definition get (url : string) : M response :=
  emit (HttpGet url) ;;;
  match requests_get E url with
  | Returned r => ret r
  | Raised e => raise e
  end.

(** [response.raise_for_status()] *)
Definition raise_for_status (r : response) (url : string) : M unit :=
  let c := status_code r in
  if (400 <=? c) && (c <? 500) then
    raise (OtherException
             (str_int c ++ " Client Error: " ++ reason r ++ " for url: " ++ url))
  else if (500 <=? c) && (c <? 600) then
    raise (OtherException
             (str_int c ++ " Server Error: " ++ reason r ++ " for url: " ++ url))
  else ret tt.

Definition response_json (r : response) : M document :=
  match json r with
  | inr data => ret data
  | inl err => raise (OtherException err)
  end.

(** [data['items'][0]['articles']] *)
Definition select_articles (data : document) : M (list api_article) :=
  match items data with
  | None => raise (OtherException "'items'")
  | Some [] => raise (OtherException "list index out of range")
  | Some (first :: _) =>
      match articles first with
      | None => raise (OtherException "'articles'")
      | Some l => ret l
      end
  end.

(** The body of the [try] block. *)
Definition fetch_attempt (url : string) : M (list api_article) :=
  response <- get url ;;
  if status_code response =? 404 then
    (* No data for a specific date is ok *)
    ret []
  else
    raise_for_status response url ;;;
    data <- response_json response ;;
    select_articles data.

Definition fetch_daily_articles (date : date) : M (list api_article) :=
  let url := fetch_url date in
  try_except (fetch_attempt url)
    (fun e =>
       match e with
       | Timeout _ =>
           emit (Stderr ("Warning: Timeout for date " ++ str_timestamp date)) ;;;
           ret []
       | ConnectionError _ =>
           emit (Stderr ("Warning: Connection error for date "
                         ++ str_timestamp date)) ;;;
           ret []
       | OtherException _ =>
           emit (Stderr ("Warning: Unexpected error for date "
                         ++ str_timestamp date ++ ": " ++ exception_str e)) ;;;
           ret []
       end).

(** *** [process_data] *)

Definition day_ordinals (first last : Z) : list Z :=
  map (fun i => first + Z.of_nat i) (seq 0 (Z.to_nat (last - first + 1))).

(** [pd.date_range(start, end, freq='D').normalize()]: the endpoints are
    read by pandas, then one timestamp per day from the first to the last
    (none when the last precedes the first). *)
Definition date_range (start_date end_date : string) : M (list date) :=
  match to_timestamp E start_date, to_timestamp E end_date with
  | Some s, Some e =>
      ret (map fromordinal (day_ordinals (toordinal s) (toordinal e)))
  | _, _ => raise (OtherException "Unknown datetime string format")
  end.

(** The loop over [dates]; [articles] is the list built so far.  [tqdm]
    hands the dates on unchanged; the bar it draws is not recorded. *)
Fixpoint fetch_loop (dates : list date) (articles : list row)
    : M (list row) :=
  match dates with
  | [] => ret articles
  | date :: rest =>
      fetched <- fetch_daily_articles date ;;
      fetch_loop rest (articles ++ map (set_date date) fetched)
  end.

Definition compute_metrics (df : DataFrame) : metrics :=
  (Some (series_max (map row_views df)),
   Some (series_mean (map snd (groupby_date series_sum df))),
   Some (nunique (map row_article df))).

Definition top_articles_of (df : DataFrame) : list string :=
  map fst (nlargest TOP_ARTICLES_COUNT (groupby_article series_sum df)).

Definition process_data (start_date end_date : string)
    : M (option DataFrame * metrics) :=
  dates <- date_range start_date end_date ;;
  articles <- fetch_loop dates [] ;;
  match articles with
  | [] => ret (None, (None, None, None))
  | _ =>
      let df := articles in
      let metrics := compute_metrics df in
      let top_articles := top_articles_of df in
      let df_top := filter (fun r => isin top_articles (row_article r)) df in
      ret (Some df_top, metrics)
  end.

(** *** [create_visualization] *)

Definition date_min (l : list date) : option date :=
  match l with
  | [] => None
  | x :: t => Some (fold_left (fun m d => if date_ltb d m then d else m) t x)
  end.

Definition date_max (l : list date) : option date :=
  match l with
  | [] => None
  | x :: t => Some (fold_left (fun m d => if date_ltb m d then d else m) t x)
  end.

Definition strftime_iso (d : date) : string :=
  (strftime_Y d ++ "-" ++ strftime_m d ++ "-" ++ strftime_d d)%string.

Definition create_visualization (df_top : DataFrame) (metrics : metrics)
    : M unit :=
  match date_min (map row_date df_top), date_max (map row_date df_top) with
  | Some min_date, Some max_date =>
      let period_str :=
        (strftime_iso min_date ++ " to " ++ strftime_iso max_date)%string in
      (* Sort by the maximum value precisely (not total sum) *)
      let article_views := sort_values_desc (groupby_article series_max df_top) in
      let sorted_articles := map fst article_views in
      let n_articles := Z.of_nat (List.length sorted_articles) in
      let n_cols := Z.min 5 n_articles in
      let n_days := days_between max_date min_date + 1 in
      let '(date_format, locator) :=
        if n_days <=? 7 then ("%m/%d", DayLocator 1)
        else if n_days <=? 30 then ("%m/%d", DayLocator 5)
        else if n_days <=? 90 then ("%b %d", DayLocator 14)
        else ("%b %Y", MonthLocator (Z.max 1 (n_days / 30 / 4))) in
      emit (SaveFig "top_articles.png"
              (mk_chart df_top sorted_articles n_cols period_str metrics
                 date_format locator)) ;;;
      emit (Stdout "Visualization saved to top_articles.png")
  | _, _ =>
      (* the minimum of an empty column is NaT, which has no strftime *)
      raise (OtherException "NaTType does not support strftime")
  end.

(** *** [main] *)

Definition main (start end_ : string) : M unit :=
  match validate_dates start end_ with
  | Some (String _ _ as error_msg) => emit (Stdout error_msg)
  | _ =>
      r <- process_data start end_ ;;
      let '(df_top, metrics) := r in
      match df_top with
      | None => emit (Stdout "No data found for the specified date range")
      | Some df_top => create_visualization df_top metrics
      end
  end.

End Script.

(** ** Vocabulary of the properties *)

(** The URLs requested, in order. *)
Definition http_gets (evs : list event) : list string :=
  flat_map (fun e => match e with HttpGet u => [u] | _ => [] end) evs.

(** The files written, in order. *)
Definition files_written (evs : list event) : list string :=
  flat_map (fun e => match e with SaveFig f _ => [f] | _ => [] end) evs.

(** What [fetch_daily_articles] hands back for a day. *)
Definition daily_articles (E : Env) (d : date) : list api_article :=
  match outcome_of (fetch_daily_articles E d) with
  | Ok l => l
  | Raise _ => []
  end.

(** Every row fetched over a list of days, in fetch order. *)
Definition all_rows (E : Env) (dates : list date) : DataFrame :=
  flat_map (fun d => map (set_date d) (daily_articles E d)) dates.

(** The ways a day can fail: the request raises (a timeout, a connection
    error, anything else), the server answers 404, or handling the answer
    raises. *)
Definition day_fails (E : Env) (d : date) : Prop :=
  (exists e, requests_get E (fetch_url d) = Raised e)
  \/ (exists r, requests_get E (fetch_url d) = Returned r /\ status_code r = 404)
  \/ (exists e, outcome_of (fetch_attempt E (fetch_url d)) = Raise e).

(** What [process_data] returns once the rows are in. *)
Definition summarize (df : DataFrame) : option DataFrame * metrics :=
  match df with
  | [] => (None, (None, None, None))
  | _ =>
      (Some (filter (fun r => isin (top_articles_of df) (row_article r)) df),
       compute_metrics df)
  end.

(** Total views of an article over the whole frame. *)
Definition total_views (df : DataFrame) (a : string) : Z :=
  series_sum (map row_views
                (filter (fun r => String.eqb (row_article r) a) df)).

(** The [w] low decimal digits of [n], most significant first: [n] written
    zero-padded in a field of width [w]. *)
Fixpoint padded (w : nat) (n : Z) : string :=
  match w with
  | O => EmptyString
  | S w' => (padded w' (n / 10) ++ String (digit_char (n mod 10)) EmptyString)%string
  end.

(** The checks of date validation in the order the specification lists
    them, each with the message reported when it fails. *)
Definition date_checks (today start_dt end_dt : date) : list (bool * string) :=
  [ (date_ltb start_dt today && date_ltb end_dt today, msg_not_before today);
    (date_ltb start_dt end_dt, msg_end_not_after_start);
    (date_leb API_START_DATE start_dt, msg_before_api_start);
    (days_between end_dt start_dt <=? 365, msg_range_too_long) ].

Fixpoint first_failing (checks : list (bool * string)) : option string :=
  match checks with
  | [] => None
  | (ok, msg) :: rest => if ok then first_failing rest else Some msg
  end.

Definition validate_dates_spec (E : Env) (start_str end_str : string)
    : option string :=
  match strptime_Ymd E start_str, strptime_Ymd E end_str with
  | Some start_dt, Some end_dt =>
      first_failing (date_checks (current_date E) start_dt end_dt)
  | _, _ => Some msg_invalid_format
  end.

(** Month and day within their ranges, whatever the year. *)
Definition calendar_valid (d : date) : Prop :=
  1 <= month d <= 12 /\ 1 <= day d <= _days_in_month (year d) (month d).

(** The month and day of [_ord2ymd], once the year, its leap flag and the
    offset [n] from January 1 are known. *)
Definition month_day_of (year : Z) (leapyear : bool) (n : Z) : date :=
  let month := Z.shiftr (n + 50) 5 in
  let preceding :=
    index _DAYS_BEFORE_MONTH month
    + (if (2 <? month) && leapyear then 1 else 0) in
  if n <? preceding then
    let month := month - 1 in
    let preceding :=
      preceding
      - (index _DAYS_IN_MONTH month
         + (if (month =? 2) && leapyear then 1 else 0)) in
    mkdate year month (n - preceding + 1)
  else mkdate year month (n - preceding + 1).

Definition month_day_ok (leapyear : bool) (n : Z) : bool :=
  let d := month_day_of 0 leapyear n in
  (1 <=? month d) && (month d <=? 12) && (1 <=? day d)
  && (day d <=? (if (month d =? 2) && leapyear then 29
                 else index _DAYS_IN_MONTH (month d)))
  && (index _DAYS_BEFORE_MONTH (month d)
      + (if (2 <? month d) && leapyear then 1 else 0) + day d =? n + 1).

Definition leap_flag_ok (k : Z) : bool :=
  let b := k / 100 in
  let c := (k mod 100) / 4 in
  let e := k mod 4 in
  Bool.eqb ((e =? 3) && (negb (c =? 24) || (b =? 3))) (_is_leap (k + 1)).

Fixpoint all_from (p : Z -> bool) (fuel : nat) (n : Z) : bool :=
  match fuel with
  | O => true
  | S fuel' => p n && all_from p fuel' (n + 1)
  end.

(** ** A concrete environment *)

Module Sample.

Definition digit_of (c : ascii) : option Z :=
  let n := Z.of_nat (nat_of_ascii c) in
  if (48 <=? n) && (n <=? 57) then Some (n - 48) else None.

Definition digit_between (lo hi : Z) (c : ascii) : option Z :=
  match digit_of c with
  | Some v => if (lo <=? v) && (v <=? hi) then Some v else None
  | None => None
  end.

(** The alternatives of CPython's pattern for [%m],
    [1[0-2]|0[1-9]|[1-9]], in order: the value matched and what is left. *)
Definition month_matches (s : string) : list (Z * string) :=
  (match s with
   | String "1" (String c r) =>
       match digit_between 0 2 c with Some v => [(10 + v, r)] | None => [] end
   | _ => []
   end)
  ++ (match s with
      | String "0" (String c r) =>
          match digit_between 1 9 c with Some v => [(v, r)] | None => [] end
      | _ => []
      end)
  ++ (match s with
      | String c r =>
          match digit_between 1 9 c with Some v => [(v, r)] | None => [] end
      | _ => []
      end).

(** The alternatives for [%d], [3[0-1]|[1-2]\d|0[1-9]|[1-9]| [1-9]]. *)
Definition day_matches (s : string) : list (Z * string) :=
  (match s with
   | String "3" (String c r) =>
       match digit_between 0 1 c with Some v => [(30 + v, r)] | None => [] end
   | _ => []
   end)
  ++ (match s with
      | String c1 (String c2 r) =>
          match digit_between 1 2 c1, digit_of c2 with
          | Some a, Some b => [(10 * a + b, r)]
          | _, _ => []
          end
      | _ => []
      end)
  ++ (match s with
      | String "0" (String c r) =>
          match digit_between 1 9 c with Some v => [(v, r)] | None => [] end
      | _ => []
      end)
  ++ (match s with
      | String c r =>
          match digit_between 1 9 c with Some v => [(v, r)] | None => [] end
      | _ => []
      end)
  ++ (match s with
      | String " " (String c r) =>
          match digit_between 1 9 c with Some v => [(v, r)] | None => [] end
      | _ => []
      end).

(** [datetime.strptime(s, '%Y%m%d').date()] on ASCII text: four digits of
    year, then the first month alternative after which a day alternative
    matches, then the first such day alternative; the text must end there
    and the fields must form a date. *)
Definition strptime_ascii (s : string) : option date :=
  match s with
  | String y1 (String y2 (String y3 (String y4 rest))) =>
      match digit_of y1, digit_of y2, digit_of y3, digit_of y4 with
      | Some a, Some b, Some c, Some d =>
          let y := 1000 * a + 100 * b + 10 * c + d in
          match filter (fun mr => negb (Nat.eqb (List.length (day_matches (snd mr))) 0))
                  (month_matches rest) with
          | (m, after_month) :: _ =>
              match day_matches after_month with
              | (dd, EmptyString) :: _ =>
                  if valid_dateb (mkdate y m dd) then Some (mkdate y m dd)
                  else None
              | _ => None
              end
          | [] => None
          end
      | _, _, _, _ => None
      end
  | _ => None
  end.

Definition entry (i : Z) : api_article :=
  mk_api_article ("Page_" ++ str_int i) (5000 - 100 * i) (i + 1).

Definition ok_response (l : list api_article) : response :=
  mk_response 200 "OK" (inr (mk_document (Some [mk_item (Some l)]))).

(** Three days of the API: twenty-two articles on the first, a server error
    on the second, three articles on the third; nothing answers elsewhere. *)
Definition requests_get (url : string) : outcome :=
  if String.eqb url
       "https://wikimedia.org/api/rest_v1/metrics/pageviews/top/en.wikipedia.org/all-access/2024/01/01"
  then Returned (ok_response (map entry (map Z.of_nat (seq 0 22))))
  else if String.eqb url
       "https://wikimedia.org/api/rest_v1/metrics/pageviews/top/en.wikipedia.org/all-access/2024/01/02"
  then Returned (mk_response 503 "Service Unavailable" (inl "Expecting value"))
  else if String.eqb url
       "https://wikimedia.org/api/rest_v1/metrics/pageviews/top/en.wikipedia.org/all-access/2024/01/03"
  then Returned (ok_response [entry 0; entry 21; entry 5])
  else if String.eqb url
       "https://wikimedia.org/api/rest_v1/metrics/pageviews/top/en.wikipedia.org/all-access/2024/01/04"
  then Returned (mk_response 404 "Not Found" (inl "Expecting value"))
  else Raised (ConnectionError "Max retries exceeded").

Definition env : Env :=
  mk_env strptime_ascii (mkdate 2024 3 1) strptime_ascii requests_get.

End Sample.

(** ** [human_format] *)

(** The function works on whatever number it is given (an integer or a
    float); what it needs from the number is the test [abs(num) >= 1000],
    the division [num / 1000.0] and the conversion [f'{num:.2f}']. *)
Section HumanFormat.
Variable number : Type.
Variable abs_ge_1000 : number -> bool.
Variable div_1000 : number -> number.
Variable format_2f : number -> string.

Definition units : list string := [EmptyString; "K"; "M"; "B"; "T"].

(** The [while] loop, with [fuel] bounding the number of turns. *)
Fixpoint human_loop (fuel : nat) (num : number) (magnitude : nat)
    : number * nat :=
  match fuel with
  | O => (num, magnitude)
  | S fuel' =>
      if abs_ge_1000 num && (magnitude <? List.length units - 1)%nat
      then human_loop fuel' (div_1000 num) (S magnitude)
      else (num, magnitude)
  end.

Definition human_format (num : number) : string :=
  let '(num, magnitude) := human_loop (List.length units) num 0%nat in
  (format_2f num ++ nth magnitude units EmptyString)%string.
End HumanFormat.
Arguments human_loop {number} abs_ge_1000 div_1000 fuel num magnitude.
Arguments human_format {number} abs_ge_1000 div_1000 format_2f num.

(** ** More vocabulary *)

Definition stdout_lines (evs : list event) : list string :=
  flat_map (fun e => match e with Stdout s => [s] | _ => [] end) evs.

(** The warnings the script prints with [print(..., file=sys.stderr)]. *)
Definition stderr_lines (evs : list event) : list string :=
  flat_map (fun e => match e with Stderr s => [s] | _ => [] end) evs.

(** The API entry a row was made from. *)
Definition api_article_of (r : row) : api_article :=
  mk_api_article (row_article r) (row_views r) (row_rank r).

(** The largest single view count of an article in a frame. *)
Definition article_peak (df : DataFrame) (a : string) : Z :=
  series_max (map row_views
                (filter (fun r => String.eqb (row_article r) a) df)).

(** Whether an event is a request or a warning, the only events of the
    fetching phase. *)
Definition is_fetch_event (e : event) : bool :=
  match e with
  | HttpGet _ | Stderr _ => true
  | _ => false
  end.

(** Whether the [try] block of a day ends in an exception. *)
Definition attempt_raises (E : Env) (d : date) : bool :=
  match outcome_of (fetch_attempt E (fetch_url d)) with
  | Raise _ => true
  | Ok _ => false
  end.

(** The figures saved, in order. *)
Definition saved_figures (evs : list event) : list chart :=
  flat_map (fun e => match e with SaveFig _ fig => [fig] | _ => [] end) evs.

(** ** More of the concrete environment *)

(** The run of [Sample.env] over its first three days. *)
Module SampleRun.

Definition days : list date :=
  [mkdate 2024 1 1; mkdate 2024 1 2; mkdate 2024 1 3].

Definition rows : DataFrame := all_rows Sample.env days.

Definition frame : DataFrame :=
  filter (fun r => isin (top_articles_of rows) (row_article r)) rows.

Definition blank : chart :=
  mk_chart [] [] 0 EmptyString (None, None, None) EmptyString (DayLocator 0).

Definition figure : chart :=
  nth 0 (saved_figures (events (main Sample.env "20240101" "20240103"))) blank.

End SampleRun.

(** An API on which twenty-two articles all have the same views. *)
Module Tied.

Definition entry (i : Z) : api_article :=
  mk_api_article ("Page_" ++ str_int i) 100 (i + 1).

Definition env : Env :=
  mk_env Sample.strptime_ascii (mkdate 2024 3 1) Sample.strptime_ascii
    (fun _ => Returned (Sample.ok_response (map entry (map Z.of_nat (seq 0 22))))).

Definition days : list date := [mkdate 2024 1 1; mkdate 2024 1 2].

Definition rows : DataFrame := all_rows env days.

Definition frame : DataFrame :=
  filter (fun r => isin (top_articles_of rows) (row_article r)) rows.

End Tied.

(** A pandas that reads eight-character text only and raises on anything
    else, next to the [strptime] of [Sample], on 2024-12-01. *)
Module EightDigits.

Definition to_timestamp (s : string) : option date :=
  if Nat.eqb (String.length s) 8 then Sample.strptime_ascii s else None.

Definition env : Env :=
  mk_env Sample.strptime_ascii (mkdate 2024 12 1) to_timestamp
    Sample.requests_get.

End EightDigits.

(** * Properties *)

(** ** The calendar *)

Lemma all_from_spec p fuel : forall n i,
  all_from p fuel n = true -> n <= i < n + Z.of_nat fuel -> p i = true.
Proof.
  induction fuel as [|fuel IH]; intros n i H Hi; [lia|].
  cbn [all_from] in H. apply andb_prop in H as [H0 H1].
  destruct (Z.eq_dec i n) as [->|Hne]; [assumption|].
  apply (IH (n + 1)); [assumption|lia].
Qed.

Lemma all_from_upto p k n i :
  all_from p (Z.to_nat k) n = true -> n <= i < n + k -> p i = true.
Proof.
  intros H Hi. apply (all_from_spec p (Z.to_nat k) n); [assumption|lia].
Qed.

Lemma month_day_checked lp n :
  0 <= n < 365 -> month_day_ok lp n = true.
Proof.
  intros Hn. destruct lp.
  - apply (all_from_spec (month_day_ok true) 365 0); [vm_compute; reflexivity|lia].
  - apply (all_from_spec (month_day_ok false) 365 0); [vm_compute; reflexivity|lia].
Qed.

Lemma leap_flag_checked k : 0 <= k < 400 -> leap_flag_ok k = true.
Proof.
  intros Hk.
  apply (all_from_spec leap_flag_ok 400 0); [vm_compute; reflexivity|lia].
Qed.

Lemma is_leap_shift y k : _is_leap (y + 400 * k) = _is_leap y.
Proof.
  unfold _is_leap.
  replace ((y + 400 * k) mod 4) with (y mod 4)
    by (replace (y + 400 * k) with (y + (100 * k) * 4) by lia; now rewrite Z.mod_add).
  replace ((y + 400 * k) mod 100) with (y mod 100)
    by (replace (y + 400 * k) with (y + (4 * k) * 100) by lia; now rewrite Z.mod_add).
  replace ((y + 400 * k) mod 400) with (y mod 400)
    by (replace (y + 400 * k) with (y + k * 400) by lia; now rewrite Z.mod_add).
  reflexivity.
Qed.

Lemma days_before_year_decomp a b c e :
  0 <= b <= 3 -> 0 <= c <= 24 -> 0 <= e <= 3 ->
  _days_before_year (400 * a + 100 * b + 4 * c + e + 1)
  = 146097 * a + 36524 * b + 1461 * c + 365 * e.
Proof.
  intros. unfold _days_before_year. cbv zeta.
  replace (400 * a + 100 * b + 4 * c + e + 1 - 1) with (400 * a + 100 * b + 4 * c + e) by lia.
  assert ((400 * a + 100 * b + 4 * c + e) / 4 = 100 * a + 25 * b + c) by (symmetry; apply Z.div_unique with e; lia).
  assert ((400 * a + 100 * b + 4 * c + e) / 100 = 4 * a + b) by (symmetry; apply Z.div_unique with (4*c+e); lia).
  assert ((400 * a + 100 * b + 4 * c + e) / 400 = a) by (symmetry; apply Z.div_unique with (100 * b + 4*c+e); lia).
  lia.
Qed.

Lemma leap_flag_decomp a b c e :
  0 <= b <= 3 -> 0 <= c <= 24 -> 0 <= e <= 3 ->
  _is_leap (400 * a + 100 * b + 4 * c + e + 1)
  = (e =? 3) && (negb (c =? 24) || (b =? 3)).
Proof.
  intros Hb Hc He.
  replace (400 * a + 100 * b + 4 * c + e + 1)
    with ((100 * b + 4 * c + e) + 1 + 400 * a) by lia.
  rewrite is_leap_shift.
  pose proof (leap_flag_checked (100 * b + 4 * c + e) ltac:(lia)) as H.
  unfold leap_flag_ok in H. cbv zeta in H.
  replace ((100 * b + 4 * c + e) / 100) with b in H
    by (apply Z.div_unique with (4 * c + e); lia).
  replace ((100 * b + 4 * c + e) mod 100) with (4 * c + e) in H
    by (apply Z.mod_unique with b; lia).
  replace ((4 * c + e) / 4) with c in H
    by (apply Z.div_unique with e; lia).
  replace ((100 * b + 4 * c + e) mod 4) with e in H
    by (apply Z.mod_unique with (25 * b + c); lia).
  apply Bool.eqb_prop in H. symmetry. exact H.
Qed.

Lemma ord2ymd_split n :
  _ord2ymd n =
  let m := n - 1 in
  let a := m / 146097 in
  let r1 := m mod 146097 in
  let b := r1 / 36524 in
  let r2 := r1 mod 36524 in
  let c := r2 / 1461 in
  let r3 := r2 mod 1461 in
  let e := r3 / 365 in
  let r4 := r3 mod 365 in
  let year := a * 400 + 1 + (b * 100 + c * 4 + e) in
  if (e =? 4) || (b =? 4) then mkdate (year - 1) 12 31
  else month_day_of year ((e =? 3) && (negb (c =? 24) || (b =? 3))) r4.
Proof. reflexivity. Qed.

Lemma month_day_of_year y lp n : year (month_day_of y lp n) = y.
Proof.
  unfold month_day_of. cbv zeta.
  match goal with |- year (if ?c then _ else _) = _ => destruct c end; reflexivity.
Qed.

Lemma month_day_of_month y lp n :
  month (month_day_of y lp n) = month (month_day_of 0 lp n).
Proof.
  unfold month_day_of. cbv zeta.
  match goal with |- month (if ?c then _ else _) = _ => destruct c end; reflexivity.
Qed.

Lemma month_day_of_day y lp n :
  day (month_day_of y lp n) = day (month_day_of 0 lp n).
Proof.
  unfold month_day_of. cbv zeta.
  match goal with |- day (if ?c then _ else _) = _ => destruct c end; reflexivity.
Qed.

Ltac december :=
  change (index _DAYS_BEFORE_MONTH 12) with 334;
  change (index _DAYS_IN_MONTH 12) with 31;
  change (2 <? 12) with true; change (12 =? 2) with false;
  cbn [andb orb negb].

Lemma ord2ymd_correct n :
  toordinal (fromordinal n) = n /\ calendar_valid (fromordinal n).
Proof.
  unfold fromordinal. rewrite ord2ymd_split. cbv zeta.
  set (m := n - 1).
  pose proof (Z.div_mod m 146097 ltac:(lia)) as E1.
  pose proof (Z.mod_pos_bound m 146097 ltac:(lia)) as B1.
  set (a := m / 146097) in *. set (r1 := m mod 146097) in *.
  pose proof (Z.div_mod r1 36524 ltac:(lia)) as E2.
  pose proof (Z.mod_pos_bound r1 36524 ltac:(lia)) as B2.
  set (b := r1 / 36524) in *. set (r2 := r1 mod 36524) in *.
  pose proof (Z.div_mod r2 1461 ltac:(lia)) as E3.
  pose proof (Z.mod_pos_bound r2 1461 ltac:(lia)) as B3.
  set (c := r2 / 1461) in *. set (r3 := r2 mod 1461) in *.
  pose proof (Z.div_mod r3 365 ltac:(lia)) as E4.
  pose proof (Z.mod_pos_bound r3 365 ltac:(lia)) as B4.
  set (e := r3 / 365) in *. set (r4 := r3 mod 365) in *.
  assert (Hb : 0 <= b <= 4) by lia.
  assert (Hc : 0 <= c <= 24) by lia.
  assert (He : 0 <= e <= 4) by lia.
  destruct (Z.eqb_spec b 4) as [Hb4|Hb4].
  - (* the last day of a 400-year cycle *)
    rewrite orb_true_r.
    assert (c = 0 /\ e = 0 /\ r4 = 0) as (-> & -> & Hr4) by lia.
    unfold toordinal, calendar_valid; cbn [year month day].
    replace (a * 400 + 1 + (b * 100 + 0 * 4 + 0) - 1)
      with (400 * a + 100 * 3 + 4 * 24 + 3 + 1) by lia.
    unfold _ymd2ord, _days_before_month, _days_in_month.
    rewrite days_before_year_decomp, leap_flag_decomp by lia.
    change ((3 =? 3) && (negb (24 =? 24) || (3 =? 3))) with true.
    december. lia.
  - rewrite orb_false_r.
    destruct (Z.eqb_spec e 4) as [He4|He4].
    + (* the last day of a 4-year cycle *)
      assert (c <= 23 /\ r4 = 0) as (Hc' & Hr4) by lia.
      unfold toordinal, calendar_valid; cbn [year month day].
      replace (a * 400 + 1 + (b * 100 + c * 4 + e) - 1)
        with (400 * a + 100 * b + 4 * c + 3 + 1) by lia.
      unfold _ymd2ord, _days_before_month, _days_in_month.
      rewrite days_before_year_decomp, leap_flag_decomp by lia.
      replace (negb (c =? 24)) with true
        by (symmetry; apply negb_true_iff, Z.eqb_neq; lia).
      change (3 =? 3) with true. december. lia.
    + set (lp := (e =? 3) && (negb (c =? 24) || (b =? 3))).
      pose proof (month_day_checked lp r4 ltac:(lia)) as H.
      unfold month_day_ok in H. cbv zeta in H.
      unfold toordinal, calendar_valid.
      rewrite month_day_of_year, month_day_of_month, month_day_of_day.
      set (mo := month (month_day_of 0 lp r4)) in *.
      set (da := day (month_day_of 0 lp r4)) in *.
      replace (a * 400 + 1 + (b * 100 + c * 4 + e))
        with (400 * a + 100 * b + 4 * c + e + 1) by lia.
      unfold _ymd2ord, _days_before_month, _days_in_month.
      rewrite days_before_year_decomp, leap_flag_decomp by lia.
      fold lp.
      repeat (apply andb_prop in H as [H ?]).
      repeat match goal with
             | H : (_ <=? _) = true |- _ => apply Z.leb_le in H
             | H : (_ =? _) = true |- _ => apply Z.eqb_eq in H
             end.
      lia.
Qed.

Lemma days_before_year_succ y :
  _days_before_year (y + 1)
  = _days_before_year y + (if _is_leap y then 366 else 365).
Proof.
  unfold _days_before_year, _is_leap. cbv zeta.
  replace (y + 1 - 1) with y by lia.
  destruct (Z.eqb_spec (y mod 4) 0), (Z.eqb_spec (y mod 100) 0),
    (Z.eqb_spec (y mod 400) 0); cbn [andb orb negb];
    Z.div_mod_to_equations; lia.
Qed.

Lemma days_before_year_mono y y' :
  y <= y' -> _days_before_year y <= _days_before_year y'.
Proof.
  intros H. unfold _days_before_year. cbv zeta.
  Z.div_mod_to_equations. lia.
Qed.

Ltac split_month m H :=
  assert (m = 1 \/ m = 2 \/ m = 3 \/ m = 4 \/ m = 5 \/ m = 6 \/ m = 7
          \/ m = 8 \/ m = 9 \/ m = 10 \/ m = 11 \/ m = 12) as H by lia.

Lemma day_of_year_bounds y m d :
  1 <= m <= 12 -> 1 <= d <= _days_in_month y m ->
  1 <= _days_before_month y m + d <= (if _is_leap y then 366 else 365).
Proof.
  intros Hm Hd. unfold _days_before_month, _days_in_month in *.
  split_month m Hcase.
  destruct (_is_leap y);
    repeat (destruct Hcase as [->|Hcase]); try subst m;
    cbv beta iota delta -[Z.add Z.le Z.lt] in Hd |- *; lia.
Qed.

Lemma month_start_mono y m m' d :
  1 <= m -> m < m' -> m' <= 12 -> 1 <= d <= _days_in_month y m ->
  _days_before_month y m + d <= _days_before_month y m'.
Proof.
  intros H1 H2 H3 Hd. unfold _days_before_month, _days_in_month in *.
  split_month m Hm. split_month m' Hm'.
  destruct (_is_leap y);
    repeat (destruct Hm as [->|Hm]); try subst m;
    repeat (destruct Hm' as [->|Hm']); try subst m';
    try (exfalso; lia);
    cbv beta iota delta -[Z.add Z.le Z.lt] in Hd |- *; lia.
Qed.

Lemma date_ltb_spec a b :
  date_ltb a b = true <->
  year a < year b
  \/ (year a = year b
      /\ (month a < month b \/ (month a = month b /\ day a < day b))).
Proof.
  unfold date_ltb.
  rewrite orb_true_iff, andb_true_iff, orb_true_iff, andb_true_iff.
  rewrite !Z.ltb_lt, !Z.eqb_eq. reflexivity.
Qed.

Lemma date_eqb_eq a b : date_eqb a b = true <-> a = b.
Proof.
  unfold date_eqb. rewrite !andb_true_iff, !Z.eqb_eq.
  destruct a, b; cbn [year month day]. split.
  - intros [[-> ->] ->]. reflexivity.
  - intros H. injection H as -> -> ->. auto.
Qed.

Lemma toordinal_lt a b :
  calendar_valid a -> calendar_valid b ->
  date_ltb a b = true -> toordinal a < toordinal b.
Proof.
  intros [Ha1 Ha2] [Hb1 Hb2] H. apply date_ltb_spec in H.
  unfold toordinal, _ymd2ord.
  pose proof (day_of_year_bounds _ _ _ Ha1 Ha2) as Da.
  pose proof (day_of_year_bounds _ _ _ Hb1 Hb2) as Db.
  destruct H as [Hy | [Hy [Hm | [Hm Hd]]]].
  - pose proof (days_before_year_succ (year a)) as Hs.
    pose proof (days_before_year_mono (year a + 1) (year b) ltac:(lia)).
    destruct (_is_leap (year a)); lia.
  - rewrite Hy in *.
    pose proof (month_start_mono (year b) (month a) (month b) (day a)
                  ltac:(lia) Hm ltac:(lia) Ha2).
    lia.
  - rewrite Hy, Hm. lia.
Qed.

Lemma date_trichotomy a b :
  date_ltb a b = true \/ a = b \/ date_ltb b a = true.
Proof.
  rewrite !date_ltb_spec.
  destruct a as [ya ma da], b as [yb mb db]; cbn [year month day].
  destruct (Z.lt_trichotomy ya yb) as [?|[->|?]]; auto.
  destruct (Z.lt_trichotomy ma mb) as [?|[->|?]]; auto 6.
  destruct (Z.lt_trichotomy da db) as [?|[->|?]]; auto 8.
Qed.

Lemma toordinal_inj a b :
  calendar_valid a -> calendar_valid b -> toordinal a = toordinal b -> a = b.
Proof.
  intros Ha Hb H.
  destruct (date_trichotomy a b) as [L|[E0|L]]; [|assumption|].
  - pose proof (toordinal_lt _ _ Ha Hb L). lia.
  - pose proof (toordinal_lt _ _ Hb Ha L). lia.
Qed.

Lemma toordinal_fromordinal n : toordinal (fromordinal n) = n.
Proof. apply ord2ymd_correct. Qed.

Lemma fromordinal_calendar_valid n : calendar_valid (fromordinal n).
Proof. apply ord2ymd_correct. Qed.

Lemma fromordinal_toordinal d :
  calendar_valid d -> fromordinal (toordinal d) = d.
Proof.
  intros Hd. apply toordinal_inj; auto using fromordinal_calendar_valid.
  apply toordinal_fromordinal.
Qed.

Lemma valid_date_calendar d : valid_date d -> calendar_valid d.
Proof.
  unfold valid_date, valid_dateb, calendar_valid. intros H.
  repeat (apply andb_prop in H as [H ?]).
  repeat match goal with
         | H : (_ <=? _) = true |- _ => apply Z.leb_le in H
         end. lia.
Qed.

Lemma date_ltb_toordinal a b :
  calendar_valid a -> calendar_valid b ->
  date_ltb a b = true <-> toordinal a < toordinal b.
Proof.
  intros Ha Hb. split; [apply toordinal_lt; assumption|].
  intros H. destruct (date_trichotomy a b) as [L|[->|L]]; [assumption|lia|].
  pose proof (toordinal_lt _ _ Hb Ha L). lia.
Qed.

Lemma date_leb_toordinal a b :
  calendar_valid a -> calendar_valid b ->
  date_leb a b = true <-> toordinal a <= toordinal b.
Proof.
  intros Ha Hb. unfold date_leb. rewrite orb_true_iff, date_eqb_eq.
  rewrite (date_ltb_toordinal a b Ha Hb). split.
  - intros [H| ->]; lia.
  - intros H. destruct (Z.eq_dec (toordinal a) (toordinal b)) as [E0|N].
    + right. apply toordinal_inj; assumption.
    + left. lia.
Qed.

(** ** Text *)

Lemma zero_pad_2 n : 0 <= n <= 99 -> zero_pad 2 n = padded 2 n.
Proof.
  intros Hn. apply String.eqb_eq.
  apply (all_from_upto (fun n => String.eqb (zero_pad 2 n) (padded 2 n)) 100 0);
    [vm_compute; reflexivity|lia].
Qed.

Lemma str_int_4 y : 1000 <= y <= 9999 -> str_int y = padded 4 y.
Proof.
  intros Hy. apply String.eqb_eq.
  apply (all_from_upto (fun n => String.eqb (str_int n) (padded 4 n)) 9000 1000);
    [vm_compute; reflexivity|lia].
Qed.

Lemma days_in_month_le_31 y m : 1 <= m <= 12 -> _days_in_month y m <= 31.
Proof.
  intros Hm. unfold _days_in_month. split_month m Hc.
  destruct (_is_leap y);
    repeat (destruct Hc as [->|Hc]); try subst m;
    cbv beta iota delta -[Z.le]; lia.
Qed.

Lemma fetch_url_padded d :
  valid_date d -> 1000 <= year d ->
  fetch_url d
  = ("https://wikimedia.org/api/rest_v1/metrics/pageviews/top/en.wikipedia.org/all-access/"
     ++ padded 4 (year d) ++ "/" ++ padded 2 (month d) ++ "/"
     ++ padded 2 (day d))%string.
Proof.
  intros Hv Hy.
  pose proof (valid_date_calendar d Hv) as [Hm Hd].
  pose proof (days_in_month_le_31 (year d) (month d) Hm) as H31.
  assert (Hy' : year d <= 9999).
  { unfold valid_date, valid_dateb in Hv.
    repeat (apply andb_prop in Hv as [Hv ?]).
    match goal with H : (year d <=? MAXYEAR) = true |- _ =>
      apply Z.leb_le in H; exact H end. }
  unfold fetch_url, strftime_Y, strftime_m, strftime_d.
  rewrite str_int_4, !zero_pad_2 by lia.
  reflexivity.
Qed.

(** ** One request *)

Lemma events_pair {A} (evs : list event) (r : result A) : events (evs, r) = evs.
Proof. reflexivity. Qed.

Lemma outcome_pair {A} (evs : list event) (r : result A) :
  outcome_of (evs, r) = r.
Proof. reflexivity. Qed.

Lemma http_gets_app a b : http_gets (a ++ b) = http_gets a ++ http_gets b.
Proof. apply flat_map_app. Qed.

Lemma files_written_app a b :
  files_written (a ++ b) = files_written a ++ files_written b.
Proof. apply flat_map_app. Qed.

Lemma fetch_attempt_events E url :
  events (fetch_attempt E url) = [HttpGet url].
Proof.
  unfold fetch_attempt, get, raise_for_status, response_json, select_articles.
  destruct (requests_get E url) as [r|e]; [|reflexivity].
  cbn [bind emit ret raise events fst app].
  destruct (status_code r =? 404); [reflexivity|].
  destruct ((400 <=? status_code r) && (status_code r <? 500)); [reflexivity|].
  destruct ((500 <=? status_code r) && (status_code r <? 600)); [reflexivity|].
  cbn [bind emit ret raise events fst app].
  destruct (json r) as [err|data]; [reflexivity|].
  cbn [bind emit ret raise events fst app].
  destruct (items data) as [[|first rest]|]; try reflexivity.
  destruct (articles first); reflexivity.
Qed.

Lemma fetch_attempt_shape E url :
  fetch_attempt E url = ([HttpGet url], outcome_of (fetch_attempt E url)).
Proof.
  pose proof (fetch_attempt_events E url) as H.
  unfold events, outcome_of in *.
  destruct (fetch_attempt E url) as [ev r]. cbn [fst snd] in *. now subst.
Qed.

Lemma fetch_daily_articles_shape E d :
  exists warnings,
    fetch_daily_articles E d
    = (HttpGet (fetch_url d) :: warnings, Ok (daily_articles E d))
    /\ http_gets warnings = [] /\ files_written warnings = []
    /\ ((exists e, outcome_of (fetch_attempt E (fetch_url d)) = Raise e)
        -> daily_articles E d = []).
Proof.
  unfold daily_articles, fetch_daily_articles.
  rewrite (fetch_attempt_shape E (fetch_url d)).
  destruct (outcome_of (fetch_attempt E (fetch_url d))) as [l|e].
  - exists []. cbn. repeat split; auto. intros [e He]; discriminate.
  - destruct e; eexists; cbn; repeat split; reflexivity.
Qed.

Lemma fetch_daily_articles_total E d :
  outcome_of (fetch_daily_articles E d) = Ok (daily_articles E d).
Proof.
  destruct (fetch_daily_articles_shape E d) as (w & H & _). now rewrite H.
Qed.

Lemma fetch_daily_articles_gets E d :
  http_gets (events (fetch_daily_articles E d)) = [fetch_url d].
Proof.
  destruct (fetch_daily_articles_shape E d) as (w & H & Hw & _).
  rewrite H. unfold events. cbn [fst].
  change (HttpGet (fetch_url d) :: w) with ([HttpGet (fetch_url d)] ++ w).
  rewrite http_gets_app, Hw. reflexivity.
Qed.

Lemma fetch_daily_articles_files E d :
  files_written (events (fetch_daily_articles E d)) = [].
Proof.
  destruct (fetch_daily_articles_shape E d) as (w & H & _ & Hw & _).
  rewrite H. unfold events. cbn [fst].
  change (HttpGet (fetch_url d) :: w) with ([HttpGet (fetch_url d)] ++ w).
  rewrite files_written_app, Hw. reflexivity.
Qed.

Lemma day_fails_no_rows E d : day_fails E d -> daily_articles E d = [].
Proof.
  intros Hf.
  destruct (fetch_daily_articles_shape E d) as (w & H & _ & _ & Hraise).
  destruct Hf as [[e He]|[[r [Hr H404]]|Hf]]; [| |auto].
  - apply Hraise. exists e. unfold fetch_attempt, get. now rewrite He.
  - unfold daily_articles, fetch_daily_articles, fetch_attempt, get.
    rewrite Hr. cbn [bind emit ret try_except outcome_of snd app].
    apply Z.eqb_eq in H404. rewrite H404. reflexivity.
Qed.

(** ** The loop over the days *)

Lemma fetch_loop_spec E dates : forall acc,
  fetch_loop E dates acc
  = (flat_map (fun d => events (fetch_daily_articles E d)) dates,
     Ok (acc ++ all_rows E dates)).
Proof.
  induction dates as [|d rest IH]; intros acc.
  - cbn. now rewrite app_nil_r.
  - cbn [fetch_loop flat_map all_rows].
    destruct (fetch_daily_articles_shape E d) as (w & H & _).
    rewrite H. cbn [bind events fst]. rewrite IH.
    now rewrite <- app_assoc.
Qed.

Lemma fetch_loop_gets E dates :
  http_gets (flat_map (fun d => events (fetch_daily_articles E d)) dates)
  = map fetch_url dates.
Proof.
  induction dates as [|d rest IH]; [reflexivity|].
  cbn [flat_map map]. rewrite http_gets_app, fetch_daily_articles_gets, IH.
  reflexivity.
Qed.

Lemma fetch_loop_files E dates :
  files_written (flat_map (fun d => events (fetch_daily_articles E d)) dates)
  = [].
Proof.
  induction dates as [|d rest IH]; [reflexivity|].
  cbn [flat_map]. rewrite files_written_app, fetch_daily_articles_files, IH.
  reflexivity.
Qed.

(** ** Sorting and grouping *)

Section SortingFacts.
Context {A : Type} (leb : A -> A -> bool).
Hypothesis leb_total : forall x y, leb x y = false -> leb y x = true.
Hypothesis leb_trans :
  forall x y z, leb x y = true -> leb y z = true -> leb x z = true.

Lemma insert_perm x l : Permutation (insert leb x l) (x :: l).
Proof.
  induction l as [|y t IH]; cbn [insert]; [reflexivity|].
  destruct (leb x y); [reflexivity|].
  rewrite IH. apply perm_swap.
Qed.

Lemma isort_perm l : Permutation (isort leb l) l.
Proof.
  induction l as [|x t IH]; [reflexivity|].
  unfold isort in *. cbn [fold_right]. rewrite insert_perm.
  now apply perm_skip.
Qed.

Lemma insert_sorted x l :
  StronglySorted (fun a b => leb a b = true) l ->
  StronglySorted (fun a b => leb a b = true) (insert leb x l).
Proof.
  induction 1 as [|y t Hs IH Hall]; cbn [insert].
  - repeat constructor.
  - destruct (leb x y) eqn:Hxy.
    + constructor; [constructor; assumption|].
      constructor; [assumption|].
      eapply Forall_impl; [|exact Hall].
      intros z Hz. cbn beta in Hz. eauto.
    + constructor; [assumption|].
      apply (Permutation_Forall (Permutation_sym (insert_perm x t))).
      constructor; [apply leb_total; assumption|assumption].
Qed.

Lemma isort_sorted l :
  StronglySorted (fun a b => leb a b = true) (isort leb l).
Proof.
  induction l as [|x t IH]; [constructor|].
  unfold isort in *. cbn [fold_right]. now apply insert_sorted.
Qed.
End SortingFacts.

Lemma in_skipn_in {A} n (l : list A) y : In y (skipn n l) -> In y l.
Proof.
  intros H. rewrite <- (firstn_skipn n l). apply in_or_app. now right.
Qed.

Lemma in_firstn_in {A} n (l : list A) y : In y (firstn n l) -> In y l.
Proof.
  intros H. rewrite <- (firstn_skipn n l). apply in_or_app. now left.
Qed.

Lemma sorted_firstn_skipn {A} (R : A -> A -> Prop) (l : list A) :
  StronglySorted R l ->
  forall n x y, In x (firstn n l) -> In y (skipn n l) -> R x y.
Proof.
  induction 1 as [|a t Hs IH Hall]; intros n x y Hx Hy.
  - destruct n; destruct Hx.
  - destruct n as [|n]; [destruct Hx|].
    cbn [firstn skipn] in Hx, Hy. destruct Hx as [->|Hx].
    + rewrite Forall_forall in Hall. apply Hall.
      apply (in_skipn_in n t y Hy).
    + eapply IH; eassumption.
Qed.

Lemma nodup_nonempty {A} (dec : forall a b : A, {a = b} + {a <> b}) l :
  l <> [] -> nodup dec l <> [].
Proof.
  destruct l as [|x t]; [congruence|]. intros _ Hnil.
  assert (Hin : In x (nodup dec (x :: t))) by (apply nodup_In; now left).
  rewrite Hnil in Hin. destruct Hin.
Qed.

Lemma by_value_total {K} (x y : K * Z) :
  (snd y <=? snd x) = false -> (snd x <=? snd y) = true.
Proof. rewrite Z.leb_gt, Z.leb_le. lia. Qed.

Lemma by_value_trans {K} (x y z : K * Z) :
  (snd y <=? snd x) = true -> (snd z <=? snd y) = true ->
  (snd z <=? snd x) = true.
Proof. rewrite !Z.leb_le. lia. Qed.

Lemma groupby_keys {K} dec leb (key : row -> K) agg df :
  map fst (groupby dec leb key agg df)
  = isort leb (nodup dec (map key df)).
Proof.
  unfold groupby. rewrite map_map. cbn [fst]. apply map_id.
Qed.

Lemma groupby_keys_perm {K} dec leb (key : row -> K) agg df :
  Permutation (map fst (groupby dec leb key agg df))
    (nodup dec (map key df)).
Proof. rewrite groupby_keys. apply isort_perm. Qed.

Lemma groupby_keys_NoDup {K} dec leb (key : row -> K) agg df :
  NoDup (map fst (groupby dec leb key agg df)).
Proof.
  eapply Permutation_NoDup;
    [apply Permutation_sym, groupby_keys_perm|apply NoDup_nodup].
Qed.

Lemma groupby_keys_In {K} dec leb (key : row -> K) agg df k :
  In k (map fst (groupby dec leb key agg df)) <-> In k (map key df).
Proof.
  rewrite <- (nodup_In dec (map key df)). split; apply Permutation_in;
    [|apply Permutation_sym]; apply groupby_keys_perm.
Qed.

Lemma groupby_length {K} dec leb (key : row -> K) agg df :
  List.length (groupby dec leb key agg df)
  = List.length (nodup dec (map key df)).
Proof.
  rewrite <- (length_map fst).
  apply Permutation_length, groupby_keys_perm.
Qed.

Lemma groupby_value {K} dec leb (key : row -> K) agg df k v :
  In (k, v) (groupby dec leb key agg df) ->
  v = agg (map row_views
             (filter (fun r => if dec (key r) k then true else false) df)).
Proof.
  unfold groupby. rewrite in_map_iff. intros (k' & Heq & _).
  now injection Heq as -> <-.
Qed.

Lemma groupby_article_value agg df a v :
  In (a, v) (groupby_article agg df) ->
  v = agg (map row_views (filter (fun r => String.eqb (row_article r) a) df)).
Proof.
  intros H. apply groupby_value in H. rewrite H. f_equal. f_equal.
  apply filter_ext. intros r.
  destruct (string_dec (row_article r) a) as [->|Hne].
  - now rewrite String.eqb_refl.
  - symmetry. now apply String.eqb_neq.
Qed.

Lemma groupby_lookup {K} dec leb (key : row -> K) agg df k :
  In k (map key df) -> exists v, In (k, v) (groupby dec leb key agg df).
Proof.
  intros H. apply (groupby_keys_In dec leb key agg) in H.
  apply in_map_iff in H as ([k' v] & Hk & Hin). cbn in Hk. subst k'.
  now exists v.
Qed.

Lemma isin_In values x : isin values x = true <-> In x values.
Proof.
  unfold isin. rewrite existsb_exists. split.
  - intros (y & Hy & Heq). apply String.eqb_eq in Heq. now subst.
  - intros H. exists x. split; [assumption|apply String.eqb_refl].
Qed.

(** ** The top articles *)

Lemma top_articles_sorted df :
  exists sorted,
    Permutation sorted (groupby_article series_sum df)
    /\ StronglySorted (fun a b => (snd b <=? snd a) = true) sorted
    /\ top_articles_of df = map fst (firstn TOP_ARTICLES_COUNT sorted).
Proof.
  exists (isort (fun a b => snd b <=? snd a) (groupby_article series_sum df)).
  split; [apply isort_perm|]. split; [|reflexivity].
  apply isort_sorted.
  - intros x y. apply by_value_total.
  - intros x y z. apply by_value_trans.
Qed.

Lemma top_articles_NoDup df : NoDup (top_articles_of df).
Proof.
  destruct (top_articles_sorted df) as (sorted & Hperm & _ & ->).
  rewrite <- firstn_map.
  apply NoDup_app_remove_r
    with (l' := skipn TOP_ARTICLES_COUNT (map fst sorted)).
  rewrite firstn_skipn.
  eapply Permutation_NoDup;
    [apply Permutation_sym, Permutation_map, Hperm|].
  apply groupby_keys_NoDup.
Qed.

Lemma top_articles_length df :
  List.length (top_articles_of df)
  = Nat.min TOP_ARTICLES_COUNT (nunique (map row_article df)).
Proof.
  destruct (top_articles_sorted df) as (sorted & Hperm & _ & ->).
  rewrite length_map, length_firstn, (Permutation_length Hperm).
  unfold groupby_article. rewrite groupby_length. reflexivity.
Qed.

Lemma top_articles_In df a :
  In a (top_articles_of df) -> In a (map row_article df).
Proof.
  destruct (top_articles_sorted df) as (sorted & Hperm & _ & ->).
  intros H. apply in_map_iff in H as (p & <- & Hp).
  apply in_firstn_in in Hp.
  apply (groupby_keys_In string_dec String.leb row_article series_sum).
  apply in_map. eapply Permutation_in; eassumption.
Qed.

Lemma top_articles_largest df a b :
  In a (top_articles_of df) -> In b (map row_article df) ->
  ~ In b (top_articles_of df) ->
  total_views df b <= total_views df a.
Proof.
  destruct (top_articles_sorted df) as (sorted & Hperm & Hsorted & ->).
  intros Ha Hb Hnb.
  apply in_map_iff in Ha as ([a' va] & Hfst & Hina). cbn in Hfst. subst a'.
  destruct (groupby_lookup string_dec String.leb row_article series_sum df b Hb)
    as (vb & Hinb).
  fold (groupby_article series_sum df) in Hinb.
  assert (Hvb : vb = total_views df b)
    by (apply (groupby_article_value series_sum df b vb Hinb)).
  assert (Hva : va = total_views df a).
  { apply (groupby_article_value series_sum df a va).
    eapply Permutation_in; [exact Hperm|]. eapply in_firstn_in; exact Hina. }
  assert (Hsk : In (b, vb) (skipn TOP_ARTICLES_COUNT sorted)).
  { apply (Permutation_in _ (Permutation_sym Hperm)) in Hinb.
    rewrite <- (firstn_skipn TOP_ARTICLES_COUNT sorted) in Hinb.
    apply in_app_or in Hinb as [Hin|Hin]; [|assumption].
    exfalso. apply Hnb. apply in_map_iff. exists (b, vb). auto. }
  pose proof (sorted_firstn_skipn _ sorted Hsorted _ _ _ Hina Hsk) as Hle.
  cbn in Hle. apply Z.leb_le in Hle. lia.
Qed.

Lemma top_articles_nonempty df : df <> [] -> top_articles_of df <> [].
Proof.
  intros Hdf Htop. pose proof (top_articles_length df) as Hlen.
  rewrite Htop in Hlen. cbn [List.length] in Hlen.
  destruct df as [|r df']; [congruence|].
  assert (Hin : In (row_article r) (nodup string_dec (map row_article (r :: df'))))
    by (apply nodup_In; now left).
  unfold nunique in Hlen.
  destruct (nodup string_dec (map row_article (r :: df'))); [destruct Hin|].
  cbn in Hlen. discriminate.
Qed.

Lemma filter_top_In df r :
  In r (filter (fun r => isin (top_articles_of df) (row_article r)) df)
  <-> In r df /\ In (row_article r) (top_articles_of df).
Proof. rewrite filter_In, isin_In. reflexivity. Qed.

Lemma filter_top_nonempty df :
  df <> [] ->
  filter (fun r => isin (top_articles_of df) (row_article r)) df <> [].
Proof.
  intros Hdf. pose proof (top_articles_nonempty df Hdf) as Hne.
  destruct (top_articles_of df) as [|a t] eqn:Htop; [congruence|].
  assert (Ha : In a (map row_article df))
    by (apply top_articles_In; rewrite Htop; now left).
  apply in_map_iff in Ha as (r & Hr & Hin).
  intros Hnil.
  assert (Hr' : In r (filter (fun r => isin (a :: t) (row_article r)) df)).
  { apply filter_In. split; [assumption|].
    apply isin_In. rewrite Hr. now left. }
  rewrite Hnil in Hr'. destruct Hr'.
Qed.

Lemma filter_top_nunique df :
  (nunique (map row_article
              (filter (fun r => isin (top_articles_of df) (row_article r)) df))
   <= TOP_ARTICLES_COUNT)%nat.
Proof.
  unfold nunique.
  transitivity (List.length (top_articles_of df)).
  - apply NoDup_incl_length; [apply NoDup_nodup|].
    intros a Ha. apply nodup_In, in_map_iff in Ha as (r & <- & Hr).
    now apply filter_top_In in Hr.
  - rewrite top_articles_length. apply Nat.le_min_l.
Qed.

(** ** The headline metrics *)

Lemma fold_max_spec l : forall x,
  x <= fold_left Z.max l x
  /\ (forall y, In y l -> y <= fold_left Z.max l x)
  /\ In (fold_left Z.max l x) (x :: l).
Proof.
  induction l as [|a t IH]; intros x; cbn [fold_left].
  - split; [lia|]. split; [intros y []|now left].
  - destruct (IH (Z.max x a)) as (H1 & H2 & H3).
    split; [lia|]. split.
    + intros y [->|Hy]; [lia|auto].
    + destruct H3 as [H3|H3]; [|right; now right].
      rewrite <- H3. destruct (Z.max_spec x a) as [[_ ->]|[_ ->]];
        [right; now left|now left].
Qed.

Lemma series_max_spec l :
  l <> [] ->
  (forall y, In y l -> y <= series_max l) /\ In (series_max l) l.
Proof.
  destruct l as [|x t]; [congruence|]. intros _. cbn [series_max].
  destruct (fold_max_spec t x) as (H1 & H2 & H3).
  split; [|assumption]. intros y [<-|Hy]; auto.
Qed.

Lemma series_sum_app a b : series_sum (a ++ b) = series_sum a + series_sum b.
Proof.
  unfold series_sum. induction a as [|x t IH]; cbn [app fold_right]; lia.
Qed.

Lemma series_sum_perm a b : Permutation a b -> series_sum a = series_sum b.
Proof.
  unfold series_sum. induction 1; cbn [fold_right]; lia.
Qed.

(** Summing each group and then the groups is summing everything. *)
Lemma sum_by_groups {K} (dec : forall a b : K, {a = b} + {a <> b})
    (key : row -> K) (df : DataFrame) : forall keys,
  NoDup keys ->
  series_sum
    (map (fun k =>
            series_sum (map row_views
              (filter (fun r => if dec (key r) k then true else false) df)))
       keys)
  = series_sum (map row_views
      (filter (fun r => if in_dec dec (key r) keys then true else false) df)).
Proof.
  induction keys as [|k ks IH]; intros Hnd.
  - cbn [map]. induction df as [|r t IHdf]; [reflexivity|].
    cbn [filter]. destruct (in_dec dec (key r) []) as [[]|_]. exact IHdf.
  - inversion Hnd as [|? ? Hnotin Hnd']; subst.
    cbn [map]. change (series_sum (?x :: ?l)) with (x + series_sum l).
    rewrite (IH Hnd'). clear IH.
    induction df as [|r t IHdf]; [reflexivity|].
    cbn [filter].
    destruct (dec (key r) k) as [Heq|Hne].
    + destruct (in_dec dec (key r) ks) as [Hin|Hnin];
        [exfalso; apply Hnotin; now rewrite <- Heq|].
      destruct (in_dec dec (key r) (k :: ks)) as [_|Hnin'];
        [|exfalso; apply Hnin'; left; now symmetry].
      cbn [map]. change (series_sum (?x :: ?l)) with (x + series_sum l).
      lia.
    + destruct (in_dec dec (key r) ks) as [Hin|Hnin].
      * destruct (in_dec dec (key r) (k :: ks)) as [_|Hnin'];
          [|exfalso; apply Hnin'; now right].
        cbn [map]. change (series_sum (?x :: ?l)) with (x + series_sum l).
        lia.
      * destruct (in_dec dec (key r) (k :: ks)) as [[Heq|Hin]|_];
          [exfalso; now apply Hne|exfalso; now apply Hnin|].
        exact IHdf.
Qed.

Lemma groupby_sum_total {K} dec leb (key : row -> K) df :
  series_sum (map snd (groupby dec leb key series_sum df))
  = series_sum (map row_views df).
Proof.
  unfold groupby. rewrite map_map. cbn [snd].
  rewrite (series_sum_perm _ _
             (Permutation_map _ (isort_perm leb (nodup dec (map key df))))).
  rewrite (sum_by_groups dec key df _ (NoDup_nodup dec (map key df))).
  f_equal. f_equal.
  rewrite <- (filter_ext_in (fun _ => true)).
  - induction df as [|r t IH]; [reflexivity|]. cbn [filter]. now f_equal.
  - intros r Hr.
    destruct (in_dec dec (key r) (nodup dec (map key df))) as [_|Hn];
      [reflexivity|].
    exfalso. apply Hn, nodup_In, in_map, Hr.
Qed.

Lemma series_mean_spec l :
  l <> [] ->
  (series_mean l * inject_Z (Z.of_nat (List.length l)) == inject_Z (series_sum l))%Q.
Proof.
  intros Hl. unfold series_mean, Qeq, Qmult, inject_Z.
  cbn [Qnum Qden]. destruct l as [|x t]; [congruence|].
  cbn [List.length]. rewrite ?Pos.mul_1_r, ?Z.mul_1_r.
  replace (Z.pos (Pos.of_nat (S (List.length t))))
    with (Z.of_nat (S (List.length t))); [lia|].
  rewrite <- positive_nat_Z, Nat2Pos.id by discriminate. reflexivity.
Qed.

(** ** Date validation *)

Lemma date_ltb_irrefl a : date_ltb a a = false.
Proof.
  destruct (date_ltb a a) eqn:H; [|reflexivity].
  apply date_ltb_spec in H. lia.
Qed.

Lemma date_ltb_asym a b : date_ltb a b = true -> date_ltb b a = false.
Proof.
  intros H. destruct (date_ltb b a) eqn:H'; [|reflexivity].
  apply date_ltb_spec in H, H'. lia.
Qed.

Lemma date_leb_negb a b : date_leb a b = negb (date_ltb b a).
Proof.
  unfold date_leb.
  destruct (date_trichotomy a b) as [L|[->|L]].
  - rewrite L, (date_ltb_asym _ _ L). reflexivity.
  - rewrite date_ltb_irrefl.
    replace (date_eqb b b) with true by (symmetry; now apply date_eqb_eq).
    reflexivity.
  - rewrite L, (date_ltb_asym _ _ L). cbn.
    destruct (date_eqb a b) eqn:Heq; [|reflexivity].
    apply date_eqb_eq in Heq. subst. now rewrite date_ltb_irrefl in L.
Qed.

Lemma validate_dates_refines E start_str end_str :
  validate_dates E start_str end_str = validate_dates_spec E start_str end_str.
Proof.
  unfold validate_dates, validate_dates_spec, date_checks, MAX_DAYS_RANGE.
  destruct (strptime_Ymd E start_str) as [ds|]; [|reflexivity].
  destruct (strptime_Ymd E end_str) as [de|]; [|reflexivity].
  cbn [first_failing]. unfold date_geb.
  rewrite !date_leb_negb, (Z.ltb_antisym (days_between de ds) 365).
  destruct (date_ltb ds (current_date E)), (date_ltb de (current_date E)),
    (date_ltb ds de), (date_ltb ds API_START_DATE),
    (days_between de ds <=? 365); reflexivity.
Qed.

Lemma validate_dates_accepts E start_str end_str :
  validate_dates E start_str end_str = None <->
  exists ds de,
    strptime_Ymd E start_str = Some ds /\ strptime_Ymd E end_str = Some de
    /\ date_ltb ds (current_date E) = true
    /\ date_ltb de (current_date E) = true
    /\ date_ltb ds de = true
    /\ date_leb API_START_DATE ds = true
    /\ days_between de ds <= 365.
Proof.
  rewrite validate_dates_refines.
  unfold validate_dates_spec, date_checks.
  destruct (strptime_Ymd E start_str) as [ds|];
    [|split; [discriminate|intros (? & ? & ? & _); discriminate]].
  destruct (strptime_Ymd E end_str) as [de|];
    [|split; [discriminate|intros (? & ? & _ & ? & _); discriminate]].
  cbn [first_failing]. split.
  - intros H. exists ds, de.
    destruct (date_ltb ds (current_date E)), (date_ltb de (current_date E)),
      (date_ltb ds de), (date_leb API_START_DATE ds),
      (Z.leb_spec (days_between de ds) 365);
      cbn in H; try discriminate; auto 10.
  - intros (ds' & de' & Hs & He & H1 & H2 & H3 & H4 & H5).
    injection Hs as <-. injection He as <-.
    apply Z.leb_le in H5. now rewrite H1, H2, H3, H4, H5.
Qed.

Lemma validate_dates_message E start_str end_str msg :
  validate_dates E start_str end_str = Some msg ->
  exists c rest, msg = String c rest.
Proof.
  unfold validate_dates.
  destruct (strptime_Ymd E start_str) as [ds|];
    [|intros H; injection H as <-; eexists; eexists; reflexivity].
  destruct (strptime_Ymd E end_str) as [de|];
    [|intros H; injection H as <-; eexists; eexists; reflexivity].
  repeat match goal with
         | |- (if ?c then _ else _) = _ -> _ => destruct c
         end;
    intros H; try discriminate; injection H as <-;
    eexists; eexists; reflexivity.
Qed.

Lemma main_rejected E start end_ msg :
  validate_dates E start end_ = Some msg ->
  main E start end_ = ([Stdout msg], Ok tt).
Proof.
  intros H. unfold main. rewrite H.
  destruct (validate_dates_message _ _ _ _ H) as (c & rest & ->).
  reflexivity.
Qed.

(** ** The day range *)

Lemma day_ordinals_In a b n : In n (day_ordinals a b) <-> a <= n <= b.
Proof.
  unfold day_ordinals. rewrite in_map_iff. split.
  - intros (i & <- & Hi). apply in_seq in Hi. lia.
  - intros H. exists (Z.to_nat (n - a)). split; [lia|].
    apply in_seq. lia.
Qed.

Lemma day_ordinals_length a b :
  a <= b -> Z.of_nat (List.length (day_ordinals a b)) = b - a + 1.
Proof.
  intros H. unfold day_ordinals. rewrite length_map, length_seq. lia.
Qed.



Lemma valid_date_year d : valid_date d -> 1 <= year d <= 9999.
Proof.
  unfold valid_date, valid_dateb, MINYEAR, MAXYEAR. intros H.
  repeat (apply andb_prop in H as [H ?]).
  repeat match goal with
         | H : (_ <=? _) = true |- _ => apply Z.leb_le in H
         end. lia.
Qed.

Lemma calendar_valid_year d :
  calendar_valid d -> 1 <= year d <= 9999 -> valid_date d.
Proof.
  intros [Hm Hd] Hy. unfold valid_date, valid_dateb, MINYEAR, MAXYEAR.
  repeat (apply andb_true_intro; split); apply Z.leb_le; lia.
Qed.

Lemma date_leb_year a b : date_leb a b = true -> year a <= year b.
Proof.
  unfold date_leb. rewrite orb_true_iff, date_ltb_spec, date_eqb_eq.
  intros [H| ->]; lia.
Qed.

Lemma days_in_range ds de d :
  valid_date ds -> valid_date de ->
  In d (map fromordinal (day_ordinals (toordinal ds) (toordinal de)))
  <-> valid_date d /\ date_leb ds d = true /\ date_leb d de = true.
Proof.
  intros Hs He.
  pose proof (valid_date_calendar _ Hs) as Cs.
  pose proof (valid_date_calendar _ He) as Ce.
  rewrite in_map_iff. split.
  - intros (n & <- & Hn). apply day_ordinals_In in Hn.
    pose proof (fromordinal_calendar_valid n) as Cn.
    assert (L1 : date_leb ds (fromordinal n) = true)
      by (apply date_leb_toordinal; auto; rewrite toordinal_fromordinal; lia).
    assert (L2 : date_leb (fromordinal n) de = true)
      by (apply date_leb_toordinal; auto; rewrite toordinal_fromordinal; lia).
    repeat split; auto.
    apply calendar_valid_year; [assumption|].
    pose proof (date_leb_year _ _ L1). pose proof (date_leb_year _ _ L2).
    pose proof (valid_date_year _ Hs). pose proof (valid_date_year _ He). lia.
  - intros (Hd & L1 & L2).
    pose proof (valid_date_calendar _ Hd) as Cd.
    exists (toordinal d). split; [now apply fromordinal_toordinal|].
    apply day_ordinals_In.
    apply date_leb_toordinal in L1, L2; auto.
Qed.

(** ** Distinct days have distinct URLs *)









(** ** [process_data], [create_visualization] and [main] as a whole *)

Lemma summarize_nonempty df :
  df <> [] ->
  summarize df
  = (Some (filter (fun r => isin (top_articles_of df) (row_article r)) df),
     compute_metrics df).
Proof. destruct df; [congruence|reflexivity]. Qed.

Lemma date_range_shape E start_date end_date :
  date_range E start_date end_date
  = ([], outcome_of (date_range E start_date end_date)).
Proof.
  unfold date_range.
  destruct (to_timestamp E start_date), (to_timestamp E end_date); reflexivity.
Qed.

Lemma date_range_agreed E start_date end_date s e :
  to_timestamp E start_date = Some s -> to_timestamp E end_date = Some e ->
  outcome_of (date_range E start_date end_date)
  = Ok (map fromordinal (day_ordinals (toordinal s) (toordinal e))).
Proof. intros Hs He. unfold date_range. now rewrite Hs, He. Qed.

Lemma process_data_spec E start_date end_date dates :
  outcome_of (date_range E start_date end_date) = Ok dates ->
  process_data E start_date end_date
  = (flat_map (fun d => events (fetch_daily_articles E d)) dates,
     Ok (summarize (all_rows E dates))).
Proof.
  intros H. unfold process_data.
  rewrite date_range_shape, H. cbn [bind].
  rewrite fetch_loop_spec. cbn [app].
  unfold summarize, ret.
  destruct (all_rows E dates); cbn [bind]; now rewrite app_nil_r.
Qed.

Lemma process_data_raises E start_date end_date x :
  outcome_of (date_range E start_date end_date) = Raise x ->
  process_data E start_date end_date = ([], Raise x).
Proof.
  intros H. unfold process_data. rewrite date_range_shape, H. reflexivity.
Qed.

Lemma all_rows_empty E dates :
  all_rows E dates = [] <-> forall d, In d dates -> daily_articles E d = [].
Proof.
  unfold all_rows. induction dates as [|d rest IH]; cbn [flat_map].
  - split; [intros _ d []|reflexivity].
  - split.
    + intros H. apply app_eq_nil in H as [H1 H2].
      intros d' [<-|Hd]; [|now apply IH].
      destruct (daily_articles E d); [reflexivity|discriminate].
    + intros H. rewrite (H d (or_introl eq_refl)). cbn [map app].
      apply IH. intros d' Hd'. apply H. now right.
Qed.

Lemma date_min_nonempty l : l <> [] -> exists d, date_min l = Some d.
Proof. destruct l; [congruence|]. intros _. eexists. reflexivity. Qed.

Lemma date_max_nonempty l : l <> [] -> exists d, date_max l = Some d.
Proof. destruct l; [congruence|]. intros _. eexists. reflexivity. Qed.

Lemma create_visualization_spec df_top m :
  df_top <> [] ->
  exists fig,
    create_visualization df_top m
    = ([SaveFig "top_articles.png" fig;
        Stdout "Visualization saved to top_articles.png"], Ok tt)
    /\ chart_data fig = df_top
    /\ title_metrics fig = m
    /\ Permutation (col_order fig) (nodup string_dec (map row_article df_top))
    /\ 1 <= col_wrap fig <= 5.
Proof.
  intros Hne.
  assert (Hd : map row_date df_top <> [])
    by (destruct df_top; [congruence|discriminate]).
  destruct (date_min_nonempty _ Hd) as (lo & Hlo).
  destruct (date_max_nonempty _ Hd) as (hi & Hhi).
  unfold create_visualization. rewrite Hlo, Hhi.
  set (order := map fst (sort_values_desc (groupby_article series_max df_top))).
  assert (Hperm : Permutation order (nodup string_dec (map row_article df_top))).
  { unfold order, sort_values_desc.
    rewrite (Permutation_map fst (isort_perm _ _)).
    apply groupby_keys_perm. }
  assert (Hlen : (1 <= List.length order)%nat).
  { rewrite (Permutation_length Hperm).
    destruct df_top as [|r t]; [congruence|].
    assert (Hin : In (row_article r) (nodup string_dec (map row_article (r :: t))))
      by (apply nodup_In; now left).
    destruct (nodup string_dec (map row_article (r :: t))); [destruct Hin|].
    cbn. lia. }
  match goal with
  | |- context [let '(_, _) := ?c in _] => destruct c as [fmt loc]
  end.
  eexists. split; [reflexivity|].
  cbn [chart_data title_metrics col_order col_wrap].
  repeat split; try assumption; lia.
Qed.

Lemma main_accepted E start end_ :
  validate_dates E start end_ = None ->
  main E start end_
  = bind (process_data E start end_)
      (fun r =>
         let '(df_top, metrics) := r in
         match df_top with
         | None => emit (Stdout "No data found for the specified date range")
         | Some df_top => create_visualization df_top metrics
         end).
Proof. intros H. unfold main. now rewrite H. Qed.

Lemma main_no_data E start end_ dates :
  validate_dates E start end_ = None ->
  outcome_of (date_range E start end_) = Ok dates ->
  all_rows E dates = [] ->
  main E start end_
  = (flat_map (fun d => events (fetch_daily_articles E d)) dates
     ++ [Stdout "No data found for the specified date range"], Ok tt).
Proof.
  intros Hv Hr Hrows.
  rewrite (main_accepted _ _ _ Hv), (process_data_spec _ _ _ _ Hr), Hrows.
  reflexivity.
Qed.

Lemma main_with_data E start end_ dates :
  validate_dates E start end_ = None ->
  outcome_of (date_range E start end_) = Ok dates ->
  all_rows E dates <> [] ->
  exists fig,
    main E start end_
    = (flat_map (fun d => events (fetch_daily_articles E d)) dates
       ++ [SaveFig "top_articles.png" fig;
           Stdout "Visualization saved to top_articles.png"], Ok tt)
    /\ summarize (all_rows E dates)
       = (Some (chart_data fig), title_metrics fig)
    /\ Permutation (col_order fig)
         (nodup string_dec (map row_article (chart_data fig)))
    /\ 1 <= col_wrap fig <= 5.
Proof.
  intros Hv Hr Hrows.
  rewrite (main_accepted _ _ _ Hv), (process_data_spec _ _ _ _ Hr).
  pose proof (filter_top_nonempty _ Hrows) as Htop.
  destruct (create_visualization_spec _ (compute_metrics (all_rows E dates)) Htop)
    as (fig & Hcv & Hdata & Hm & Hperm & Hwrap).
  exists fig. unfold summarize.
  destruct (all_rows E dates) as [|r t] eqn:Hdf; [congruence|].
  cbn [bind]. rewrite Hcv, Hdata, Hm.
  split; [reflexivity|]. split; [reflexivity|].
  split; [exact Hperm|exact Hwrap].
Qed.

Lemma main_range_error E start end_ x :
  validate_dates E start end_ = None ->
  outcome_of (date_range E start end_) = Raise x ->
  main E start end_ = ([], Raise x).
Proof.
  intros Hv Hr.
  rewrite (main_accepted _ _ _ Hv), (process_data_raises _ _ _ _ Hr).
  reflexivity.
Qed.

(** * The claims of the specification *)




(** C2.  When at least one row was fetched, the frame [process_data]
    returns holds exactly the fetched rows whose article is in a set [top]
    of min(20, number of distinct articles) articles, none of which has a
    smaller total of views over the range than an article left out; so the
    frame has at most 20 distinct articles. *)
Theorem top_articles_rows E start_date end_date dates :
  outcome_of (date_range E start_date end_date) = Ok dates ->
  all_rows E dates <> [] ->
  let df := all_rows E dates in
  exists df_top m top,
    outcome_of (process_data E start_date end_date) = Ok (Some df_top, m)
    /\ NoDup top
    /\ List.length top = Nat.min 20 (nunique (map row_article df))
    /\ (forall a, In a top -> In a (map row_article df))
    /\ (forall a b, In a top -> In b (map row_article df) -> ~ In b top ->
                    total_views df b <= total_views df a)
    /\ (forall r, In r df_top <-> In r df /\ In (row_article r) top)
    /\ df_top = filter (fun r => isin top (row_article r)) df
    /\ (nunique (map row_article df_top) <= 20)%nat.
Proof.
  intros Hr Hne df.
  exists (filter (fun r => isin (top_articles_of df) (row_article r)) df),
    (compute_metrics df), (top_articles_of df).
  rewrite (process_data_spec _ _ _ _ Hr). unfold outcome_of. cbn [snd].
  rewrite (summarize_nonempty _ Hne). fold df.
  split; [reflexivity|].
  split; [apply top_articles_NoDup|].
  split; [apply top_articles_length|].
  split; [apply top_articles_In|].
  split; [apply top_articles_largest|].
  split; [apply filter_top_In|].
  split; [reflexivity|apply filter_top_nunique].
Qed.

Lemma top_articles_rows_witness :
  outcome_of (date_range Sample.env "20240101" "20240103")
  = Ok [mkdate 2024 1 1; mkdate 2024 1 2; mkdate 2024 1 3]
  /\ all_rows Sample.env [mkdate 2024 1 1; mkdate 2024 1 2; mkdate 2024 1 3]
     <> []
  /\ let df :=
       all_rows Sample.env [mkdate 2024 1 1; mkdate 2024 1 2; mkdate 2024 1 3] in
     exists df_top m top,
       outcome_of (process_data Sample.env "20240101" "20240103")
       = Ok (Some df_top, m)
       /\ NoDup top
       /\ List.length top = Nat.min 20 (nunique (map row_article df))
       /\ (forall a, In a top -> In a (map row_article df))
       /\ (forall a b, In a top -> In b (map row_article df) -> ~ In b top ->
                       total_views df b <= total_views df a)
       /\ (forall r, In r df_top <-> In r df /\ In (row_article r) top)
       /\ df_top = filter (fun r => isin top (row_article r)) df
       /\ (nunique (map row_article df_top) <= 20)%nat.
Proof.
  split; [vm_compute; reflexivity|].
  split; [vm_compute; discriminate|].
  apply (top_articles_rows Sample.env "20240101" "20240103");
    [vm_compute; reflexivity|vm_compute; discriminate].
Defined.

(** C3.  [fetch_daily_articles] never propagates an exception: it always
    returns a list.  On a day that fails (the request raises a timeout, a
    connection error or anything else, the answer is a 404, or handling
    the answer raises) the list is empty, so the day adds no row, and the
    loop goes on to fetch every remaining day. *)
Theorem fetch_never_raises E d :
  (exists l, outcome_of (fetch_daily_articles E d) = Ok l)
  /\ (day_fails E d ->
      outcome_of (fetch_daily_articles E d) = Ok []
      /\ forall rest acc,
           outcome_of (fetch_loop E (d :: rest) acc)
           = outcome_of (fetch_loop E rest acc)
           /\ http_gets (events (fetch_loop E (d :: rest) acc))
              = fetch_url d :: map fetch_url rest).
Proof.
  split; [eexists; apply fetch_daily_articles_total|].
  intros Hf. pose proof (day_fails_no_rows E d Hf) as Hnil.
  split; [rewrite fetch_daily_articles_total; now rewrite Hnil|].
  intros rest acc. rewrite !fetch_loop_spec, !events_pair, !outcome_pair.
  split.
  - cbn [all_rows flat_map]. rewrite Hnil. reflexivity.
  - apply (fetch_loop_gets E (d :: rest)).
Qed.

Lemma fetch_never_raises_witness :
  day_fails Sample.env (mkdate 2024 1 2)
  /\ outcome_of (fetch_daily_articles Sample.env (mkdate 2024 1 2)) = Ok []
  /\ forall rest acc,
       outcome_of (fetch_loop Sample.env (mkdate 2024 1 2 :: rest) acc)
       = outcome_of (fetch_loop Sample.env rest acc)
       /\ http_gets (events (fetch_loop Sample.env (mkdate 2024 1 2 :: rest) acc))
          = fetch_url (mkdate 2024 1 2) :: map fetch_url rest.
Proof.
  assert (H : day_fails Sample.env (mkdate 2024 1 2)).
  { right. right. eexists. vm_compute. reflexivity. }
  split; [exact H|].
  exact (proj2 (fetch_never_raises Sample.env (mkdate 2024 1 2)) H).
Defined.

(** C4.  [validate_dates] returns [None] exactly when both arguments
    parse, both dates are strictly before today, the end is strictly after
    the start, the start is on or after 2015-07-01 and the end is at most
    365 days after the start; otherwise it returns the message of the
    first check that fails, in that order; and [main] then prints that
    message and stops, without any HTTP request. *)
Theorem validate_dates_checks E start_str end_str :
  (validate_dates E start_str end_str = None <->
   exists ds de,
     strptime_Ymd E start_str = Some ds /\ strptime_Ymd E end_str = Some de
     /\ date_ltb ds (current_date E) = true
     /\ date_ltb de (current_date E) = true
     /\ date_ltb ds de = true
     /\ date_leb API_START_DATE ds = true
     /\ days_between de ds <= 365)
  /\ validate_dates E start_str end_str
     = validate_dates_spec E start_str end_str
  /\ (forall msg,
        validate_dates E start_str end_str = Some msg ->
        main E start_str end_str = ([Stdout msg], Ok tt)
        /\ http_gets (events (main E start_str end_str)) = []).
Proof.
  split; [apply validate_dates_accepts|].
  split; [apply validate_dates_refines|].
  intros msg H. rewrite (main_rejected _ _ _ _ H). split; reflexivity.
Qed.

Lemma validate_dates_checks_witness :
  validate_dates Sample.env "20240105" "20240103"
  = Some "Error: End date must be > start date"
  /\ main Sample.env "20240105" "20240103"
     = ([Stdout "Error: End date must be > start date"], Ok tt)
  /\ http_gets (events (main Sample.env "20240105" "20240103")) = [].
Proof.
  assert (H : validate_dates Sample.env "20240105" "20240103"
              = Some "Error: End date must be > start date")
    by (vm_compute; reflexivity).
  split; [exact H|].
  exact (proj2 (proj2 (validate_dates_checks Sample.env "20240105" "20240103"))
           _ H).
Defined.

(** C5.  In every run that passes validation and fetches at least one row,
    [main] ends by saving one figure to ['top_articles.png']: a chart of
    the frame returned by [process_data], faceted by article (one column
    per distinct article, at most five columns to a line). *)
Theorem chart_saved E start end_ dates :
  validate_dates E start end_ = None ->
  outcome_of (date_range E start end_) = Ok dates ->
  all_rows E dates <> [] ->
  exists fig df_top m,
    events (main E start end_)
    = flat_map (fun d => events (fetch_daily_articles E d)) dates
      ++ [SaveFig "top_articles.png" fig;
          Stdout "Visualization saved to top_articles.png"]
    /\ outcome_of (main E start end_) = Ok tt
    /\ files_written (events (main E start end_)) = ["top_articles.png"]
    /\ outcome_of (process_data E start end_) = Ok (Some df_top, m)
    /\ chart_data fig = df_top /\ df_top <> []
    /\ Permutation (col_order fig) (nodup string_dec (map row_article df_top))
    /\ 1 <= col_wrap fig <= 5.
Proof.
  intros Hv Hr Hne.
  destruct (main_with_data _ _ _ _ Hv Hr Hne)
    as (fig & Hmain & Hsum & Hperm & Hwrap).
  exists fig, (chart_data fig), (title_metrics fig).
  rewrite Hmain, (process_data_spec _ _ _ _ Hr), Hsum.
  rewrite !events_pair, !outcome_pair.
  split; [reflexivity|]. split; [reflexivity|].
  split; [rewrite files_written_app, fetch_loop_files; reflexivity|].
  split; [reflexivity|]. split; [reflexivity|].
  split; [|split; assumption].
  rewrite (summarize_nonempty _ Hne) in Hsum. injection Hsum as <- _.
  now apply filter_top_nonempty.
Qed.

Lemma chart_saved_witness :
  validate_dates Sample.env "20240101" "20240103" = None
  /\ all_rows Sample.env [mkdate 2024 1 1; mkdate 2024 1 2; mkdate 2024 1 3]
     <> []
  /\ exists fig df_top m,
       events (main Sample.env "20240101" "20240103")
       = flat_map (fun d => events (fetch_daily_articles Sample.env d))
           [mkdate 2024 1 1; mkdate 2024 1 2; mkdate 2024 1 3]
         ++ [SaveFig "top_articles.png" fig;
             Stdout "Visualization saved to top_articles.png"]
       /\ outcome_of (main Sample.env "20240101" "20240103") = Ok tt
       /\ files_written (events (main Sample.env "20240101" "20240103"))
          = ["top_articles.png"]
       /\ outcome_of (process_data Sample.env "20240101" "20240103")
          = Ok (Some df_top, m)
       /\ chart_data fig = df_top /\ df_top <> []
       /\ Permutation (col_order fig)
            (nodup string_dec (map row_article df_top))
       /\ 1 <= col_wrap fig <= 5.
Proof.
  split; [vm_compute; reflexivity|].
  split; [vm_compute; discriminate|].
  apply (chart_saved Sample.env "20240101" "20240103");
    [vm_compute; reflexivity|vm_compute; reflexivity|vm_compute; discriminate].
Defined.

(** C6.  For every date [d] with a four-digit year, the one URL that
    [fetch_daily_articles] requests is the top-pageviews endpoint for
    en.wikipedia.org and all-access followed by the year of [d] on four
    digits, its month on two and its day on two, zero-padded and separated
    by slashes. *)
Theorem fetch_url_format E d :
  valid_date d -> 1000 <= year d ->
  exists warnings,
    events (fetch_daily_articles E d)
    = HttpGet
        ("https://wikimedia.org/api/rest_v1/metrics/pageviews/top/en.wikipedia.org/all-access/"
         ++ padded 4 (year d) ++ "/" ++ padded 2 (month d) ++ "/"
         ++ padded 2 (day d))%string
      :: warnings
    /\ http_gets warnings = [].
Proof.
  intros Hv Hy.
  destruct (fetch_daily_articles_shape E d) as (w & H & Hw & _).
  exists w. rewrite H, (fetch_url_padded d Hv Hy). split; [reflexivity|exact Hw].
Qed.

Lemma fetch_url_format_witness :
  valid_date (mkdate 2024 2 29) /\ 1000 <= 2024
  /\ exists warnings,
       events (fetch_daily_articles Sample.env (mkdate 2024 2 29))
       = HttpGet
           "https://wikimedia.org/api/rest_v1/metrics/pageviews/top/en.wikipedia.org/all-access/2024/02/29"
         :: warnings
       /\ http_gets warnings = [].
Proof.
  split; [reflexivity|]. split; [lia|].
  apply (fetch_url_format Sample.env (mkdate 2024 2 29)); [reflexivity|].
  cbn [year]. lia.
Defined.

(** C7.  Given the days of the range, [process_data] returns
    [(None, (None, None, None))] exactly when every day yielded an empty
    list; [main] then prints ['No data found for the specified date range']
    after the requests and stops, and writes no file. *)
Theorem no_data_found E start end_ dates :
  outcome_of (date_range E start end_) = Ok dates ->
  (outcome_of (process_data E start end_) = Ok (None, (None, None, None))
   <-> forall d, In d dates -> daily_articles E d = [])
  /\ (validate_dates E start end_ = None ->
      (forall d, In d dates -> daily_articles E d = []) ->
      main E start end_
      = (flat_map (fun d => events (fetch_daily_articles E d)) dates
         ++ [Stdout "No data found for the specified date range"], Ok tt)
      /\ files_written (events (main E start end_)) = []).
Proof.
  intros Hr. split.
  - rewrite (process_data_spec _ _ _ _ Hr), <- all_rows_empty.
    unfold outcome_of. cbn [snd]. unfold summarize.
    destruct (all_rows E dates); split; intros H;
      try reflexivity; discriminate.
  - intros Hv Hall. apply all_rows_empty in Hall.
    rewrite (main_no_data _ _ _ _ Hv Hr Hall). split; [reflexivity|].
    rewrite events_pair.
    rewrite files_written_app, fetch_loop_files. reflexivity.
Qed.

Lemma no_data_found_witness :
  outcome_of (date_range Sample.env "20240104" "20240105")
  = Ok [mkdate 2024 1 4; mkdate 2024 1 5]
  /\ validate_dates Sample.env "20240104" "20240105" = None
  /\ (forall d, In d [mkdate 2024 1 4; mkdate 2024 1 5] ->
                daily_articles Sample.env d = [])
  /\ outcome_of (process_data Sample.env "20240104" "20240105")
     = Ok (None, (None, None, None))
  /\ main Sample.env "20240104" "20240105"
     = (flat_map (fun d => events (fetch_daily_articles Sample.env d))
          [mkdate 2024 1 4; mkdate 2024 1 5]
        ++ [Stdout "No data found for the specified date range"], Ok tt)
  /\ files_written (events (main Sample.env "20240104" "20240105")) = [].
Proof.
  assert (Hr : outcome_of (date_range Sample.env "20240104" "20240105")
               = Ok [mkdate 2024 1 4; mkdate 2024 1 5])
    by (vm_compute; reflexivity).
  assert (Hv : validate_dates Sample.env "20240104" "20240105" = None)
    by (vm_compute; reflexivity).
  assert (Hall : forall d, In d [mkdate 2024 1 4; mkdate 2024 1 5] ->
                           daily_articles Sample.env d = []).
  { intros d [<-|[<-|[]]]; vm_compute; reflexivity. }
  destruct (no_data_found Sample.env "20240104" "20240105" _ Hr) as [Hiff Hmain].
  split; [exact Hr|]. split; [exact Hv|]. split; [exact Hall|].
  split; [exact (proj2 Hiff Hall)|exact (Hmain Hv Hall)].
Defined.

(** C8.  The three metrics [process_data] returns are computed over all
    the fetched rows: the first is the largest view count of any fetched
    row, the second is the total of all fetched views divided by the number
    of distinct days among the fetched rows, the third is the number of
    distinct articles among the fetched rows; none depends on the top-20
    subset returned with them. *)
Theorem metrics_over_all_rows E start_date end_date dates :
  outcome_of (date_range E start_date end_date) = Ok dates ->
  all_rows E dates <> [] ->
  let df := all_rows E dates in
  exists df_top max_views mean_views unique_articles,
    outcome_of (process_data E start_date end_date)
    = Ok (Some df_top, (Some max_views, Some mean_views, Some unique_articles))
    /\ (forall r, In r df -> row_views r <= max_views)
    /\ (exists r, In r df /\ row_views r = max_views)
    /\ (mean_views
        * inject_Z (Z.of_nat (List.length (nodup date_eq_dec (map row_date df))))
        == inject_Z (series_sum (map row_views df)))%Q
    /\ unique_articles = List.length (nodup string_dec (map row_article df)).
Proof.
  intros Hr Hne df.
  rewrite (process_data_spec _ _ _ _ Hr), (summarize_nonempty _ Hne).
  fold df. unfold outcome_of, compute_metrics. cbn [snd].
  do 4 eexists. split; [reflexivity|].
  assert (Hviews : map row_views df <> [])
    by (intros Hm; apply map_eq_nil in Hm; now apply Hne).
  destruct (series_max_spec _ Hviews) as [Hmax Hin].
  split; [intros r Hrow; apply Hmax, in_map, Hrow|].
  split.
  { apply in_map_iff in Hin as (r & Heq & Hrow). now exists r. }
  split; [|reflexivity].
  unfold groupby_date.
  rewrite <- (groupby_length date_eq_dec date_leb row_date series_sum df).
  rewrite <- (length_map snd).
  rewrite <- (groupby_sum_total date_eq_dec date_leb row_date df).
  apply series_mean_spec.
  intros Hnil. apply map_eq_nil in Hnil.
  apply (f_equal (@List.length (date * Z))) in Hnil.
  rewrite groupby_length in Hnil. cbn [List.length] in Hnil.
  apply length_zero_iff_nil in Hnil.
  apply (nodup_nonempty date_eq_dec (map row_date df)); [|assumption].
  intros Hm; apply map_eq_nil in Hm; now apply Hne.
Qed.

Lemma metrics_over_all_rows_witness :
  outcome_of (date_range Sample.env "20240101" "20240103")
  = Ok [mkdate 2024 1 1; mkdate 2024 1 2; mkdate 2024 1 3]
  /\ all_rows Sample.env [mkdate 2024 1 1; mkdate 2024 1 2; mkdate 2024 1 3]
     <> []
  /\ let df :=
       all_rows Sample.env [mkdate 2024 1 1; mkdate 2024 1 2; mkdate 2024 1 3] in
     exists df_top max_views mean_views unique_articles,
       outcome_of (process_data Sample.env "20240101" "20240103")
       = Ok (Some df_top,
             (Some max_views, Some mean_views, Some unique_articles))
       /\ (forall r, In r df -> row_views r <= max_views)
       /\ (exists r, In r df /\ row_views r = max_views)
       /\ (mean_views
           * inject_Z (Z.of_nat (List.length
                                   (nodup date_eq_dec (map row_date df))))
           == inject_Z (series_sum (map row_views df)))%Q
       /\ unique_articles
          = List.length (nodup string_dec (map row_article df)).
Proof.
  split; [vm_compute; reflexivity|].
  split; [vm_compute; discriminate|].
  apply (metrics_over_all_rows Sample.env "20240101" "20240103");
    [vm_compute; reflexivity|vm_compute; discriminate].
Defined.

(** C9.  The only file a run can write is ['top_articles.png'], and it is
    written at most once; a run whose arguments fail validation, and a run
    in which no day yields a row, write no file. *)
Theorem only_the_chart_is_written E start end_ :
  (files_written (events (main E start end_)) = []
   \/ files_written (events (main E start end_)) = ["top_articles.png"])
  /\ (validate_dates E start end_ <> None ->
      files_written (events (main E start end_)) = [])
  /\ (forall dates,
        outcome_of (date_range E start end_) = Ok dates ->
        (forall d, In d dates -> daily_articles E d = []) ->
        files_written (events (main E start end_)) = []).
Proof.
  assert (Hrej : validate_dates E start end_ <> None ->
                 files_written (events (main E start end_)) = []).
  { intros Hv. destruct (validate_dates E start end_) as [msg|] eqn:H;
      [|congruence].
    now rewrite (main_rejected _ _ _ _ H). }
  assert (Hempty : forall dates,
             outcome_of (date_range E start end_) = Ok dates ->
             (forall d, In d dates -> daily_articles E d = []) ->
             files_written (events (main E start end_)) = []).
  { intros dates Hr Hall.
    destruct (validate_dates E start end_) as [msg|] eqn:Hv;
      [apply Hrej; congruence|].
    apply all_rows_empty in Hall.
    rewrite (main_no_data _ _ _ _ Hv Hr Hall), events_pair.
    rewrite files_written_app, fetch_loop_files. reflexivity. }
  split; [|split; assumption].
  destruct (validate_dates E start end_) as [msg|] eqn:Hv;
    [left; apply Hrej; congruence|].
  destruct (outcome_of (date_range E start end_)) as [dates|x] eqn:Hr.
  - destruct (list_eq_dec (fun a b : row => ltac:(repeat decide equality))
                (all_rows E dates) []) as [Hnil|Hne].
    + left. apply (Hempty dates); [reflexivity|].
      now apply all_rows_empty.
    + right. destruct (main_with_data _ _ _ _ Hv Hr Hne) as (fig & Hmain & _).
      rewrite Hmain, events_pair.
      rewrite files_written_app, fetch_loop_files. reflexivity.
  - left. now rewrite (main_range_error _ _ _ _ Hv Hr).
Qed.

Lemma only_the_chart_is_written_witness :
  validate_dates Sample.env "20240301" "20240305" <> None
  /\ files_written (events (main Sample.env "20240301" "20240305")) = [].
Proof.
  assert (H : validate_dates Sample.env "20240301" "20240305" <> None)
    by (vm_compute; discriminate).
  split; [exact H|].
  exact (proj1 (proj2 (only_the_chart_is_written Sample.env
                         "20240301" "20240305")) H).
Defined.

(** * Further properties of the script *)

(** ** [fetch_daily_articles], case by case *)

(** X1.  A well-formed answer is passed through untouched: when the server
    answers with a status that is neither 404 nor an error status and the
    body decodes to a document whose first item has an [articles] list,
    [fetch_daily_articles] returns exactly that list (whatever the other
    items hold) after one request and without any warning. *)
Theorem fetch_success E d r data first others l :
  requests_get E (fetch_url d) = Returned r ->
  status_code r <> 404 ->
  ~ (400 <= status_code r < 600) ->
  json r = inr data ->
  items data = Some (first :: others) ->
  articles first = Some l ->
  fetch_daily_articles E d = ([HttpGet (fetch_url d)], Ok l).
Proof.
  intros Hr H404 Herr Hj Hi Ha.
  unfold fetch_daily_articles, fetch_attempt, get, raise_for_status,
    response_json, select_articles.
  rewrite Hr. cbn [bind emit ret app try_except].
  apply Z.eqb_neq in H404. rewrite H404.
  replace ((400 <=? status_code r) && (status_code r <? 500)) with false
    by (symmetry; apply andb_false_iff; rewrite Z.leb_gt, Z.ltb_ge; lia).
  replace ((500 <=? status_code r) && (status_code r <? 600)) with false
    by (symmetry; apply andb_false_iff; rewrite Z.leb_gt, Z.ltb_ge; lia).
  cbn [bind emit ret app try_except]. rewrite Hj.
  cbn [bind emit ret app try_except]. rewrite Hi, Ha. reflexivity.
Qed.

Lemma fetch_success_witness :
  fetch_daily_articles Sample.env (mkdate 2024 1 3)
  = ([HttpGet (fetch_url (mkdate 2024 1 3))],
     Ok [Sample.entry 0; Sample.entry 21; Sample.entry 5]).
Proof.
  apply (fetch_success Sample.env (mkdate 2024 1 3)
           (Sample.ok_response [Sample.entry 0; Sample.entry 21; Sample.entry 5])
           (mk_document
              (Some [mk_item (Some [Sample.entry 0; Sample.entry 21;
                                    Sample.entry 5])]))
           (mk_item (Some [Sample.entry 0; Sample.entry 21; Sample.entry 5]))
           []);
    try reflexivity.
  - cbn. discriminate.
  - cbn. lia.
Defined.

(** X2.  A 404 is silent: whatever the body, [fetch_daily_articles] makes
    its one request, writes nothing to stderr and returns the empty list. *)
Theorem fetch_not_found_is_silent E d r :
  requests_get E (fetch_url d) = Returned r ->
  status_code r = 404 ->
  fetch_daily_articles E d = ([HttpGet (fetch_url d)], Ok []).
Proof.
  intros Hr H404.
  unfold fetch_daily_articles, fetch_attempt, get.
  rewrite Hr. cbn [bind emit ret app try_except].
  apply Z.eqb_eq in H404. rewrite H404. reflexivity.
Qed.

Lemma fetch_not_found_is_silent_witness :
  fetch_daily_articles Sample.env (mkdate 2024 1 4)
  = ([HttpGet (fetch_url (mkdate 2024 1 4))], Ok []).
Proof.
  apply (fetch_not_found_is_silent Sample.env (mkdate 2024 1 4)
           (mk_response 404 "Not Found" (inl "Expecting value")));
    reflexivity.
Defined.

(** X3.  When the request itself raises, exactly one line goes to stderr
    and it tells the three handlers apart: a timeout and a connection error
    are reported by name with the day, any other exception with the day and
    the exception's text.  The day then yields the empty list. *)
Theorem fetch_request_raised E d e :
  requests_get E (fetch_url d) = Raised e ->
  outcome_of (fetch_daily_articles E d) = Ok []
  /\ http_gets (events (fetch_daily_articles E d)) = [fetch_url d]
  /\ stderr_lines (events (fetch_daily_articles E d))
     = [match e with
        | Timeout _ =>
            ("Warning: Timeout for date " ++ str_timestamp d)%string
        | ConnectionError _ =>
            ("Warning: Connection error for date " ++ str_timestamp d)%string
        | OtherException msg =>
            ("Warning: Unexpected error for date " ++ str_timestamp d
             ++ ": " ++ msg)%string
        end].
Proof.
  intros Hr. unfold fetch_daily_articles, fetch_attempt, get.
  rewrite Hr. destruct e; repeat split; reflexivity.
Qed.

Lemma fetch_request_raised_witness :
  outcome_of (fetch_daily_articles Sample.env (mkdate 2024 1 9)) = Ok []
  /\ http_gets (events (fetch_daily_articles Sample.env (mkdate 2024 1 9)))
     = [fetch_url (mkdate 2024 1 9)]
  /\ stderr_lines (events (fetch_daily_articles Sample.env (mkdate 2024 1 9)))
     = ["Warning: Connection error for date 2024-01-09 00:00:00"].
Proof.
  exact (fetch_request_raised Sample.env (mkdate 2024 1 9)
           (ConnectionError "Max retries exceeded") eq_refl).
Defined.

(** X4.  An error status other than 404 never contributes rows, whatever
    the body holds: for a status from 400 to 599 the day yields the empty
    list, after one request and one stderr line reporting an unexpected
    error for that day. *)
Theorem fetch_http_error E d r :
  requests_get E (fetch_url d) = Returned r ->
  status_code r <> 404 ->
  400 <= status_code r < 600 ->
  exists msg,
    fetch_daily_articles E d
    = ([HttpGet (fetch_url d);
        Stderr ("Warning: Unexpected error for date " ++ str_timestamp d
                ++ ": " ++ msg)],
       Ok []).
Proof.
  intros Hr H404 Herr.
  unfold fetch_daily_articles, fetch_attempt, get, raise_for_status.
  rewrite Hr. cbn [bind emit ret app try_except].
  apply Z.eqb_neq in H404. rewrite H404.
  replace (400 <=? status_code r) with true by (symmetry; apply Z.leb_le; lia).
  cbn [andb].
  destruct (Z.ltb_spec (status_code r) 500) as [Hlt|Hge].
  - eexists. reflexivity.
  - replace (500 <=? status_code r) with true
      by (symmetry; apply Z.leb_le; lia).
    replace (status_code r <? 600) with true
      by (symmetry; apply Z.ltb_lt; lia).
    eexists. reflexivity.
Qed.

Lemma fetch_http_error_witness :
  exists msg,
    fetch_daily_articles Sample.env (mkdate 2024 1 2)
    = ([HttpGet (fetch_url (mkdate 2024 1 2));
        Stderr ("Warning: Unexpected error for date "
                ++ str_timestamp (mkdate 2024 1 2) ++ ": " ++ msg)],
       Ok []).
Proof.
  apply (fetch_http_error Sample.env (mkdate 2024 1 2)
           (mk_response 503 "Service Unavailable" (inl "Expecting value")));
    [reflexivity|cbn; discriminate|cbn; lia].
Defined.

(** X5.  A body that cannot be used is skipped like any other failure: when
    the status is fine but the body does not decode, has no [items] key,
    has an empty [items] list, or its first item has no [articles] key, the
    day yields the empty list after one request and one stderr line. *)
Theorem fetch_malformed_body E d r :
  requests_get E (fetch_url d) = Returned r ->
  status_code r <> 404 ->
  ~ (400 <= status_code r < 600) ->
  (exists err, json r = inl err)
  \/ (exists data, json r = inr data
        /\ (items data = None \/ items data = Some []
            \/ exists first others,
                 items data = Some (first :: others)
                 /\ articles first = None)) ->
  exists msg,
    fetch_daily_articles E d
    = ([HttpGet (fetch_url d);
        Stderr ("Warning: Unexpected error for date " ++ str_timestamp d
                ++ ": " ++ msg)],
       Ok []).
Proof.
  intros Hr H404 Herr Hbody.
  unfold fetch_daily_articles, fetch_attempt, get, raise_for_status,
    response_json, select_articles.
  rewrite Hr. cbn [bind emit ret app try_except].
  apply Z.eqb_neq in H404. rewrite H404.
  replace ((400 <=? status_code r) && (status_code r <? 500)) with false
    by (symmetry; apply andb_false_iff; rewrite Z.leb_gt, Z.ltb_ge; lia).
  replace ((500 <=? status_code r) && (status_code r <? 600)) with false
    by (symmetry; apply andb_false_iff; rewrite Z.leb_gt, Z.ltb_ge; lia).
  cbn [bind emit ret app try_except].
  destruct Hbody as [[err Hj]|(data & Hj & Hitems)]; rewrite Hj.
  - eexists. reflexivity.
  - cbn [bind emit ret app try_except].
    destruct Hitems as [Hi|[Hi|(first & others & Hi & Ha)]]; rewrite Hi;
      [| |rewrite Ha]; eexists; reflexivity.
Qed.

Lemma fetch_malformed_body_witness :
  let E := mk_env Sample.strptime_ascii (mkdate 2024 3 1) Sample.strptime_ascii
             (fun _ => Returned (mk_response 200 "OK" (inr (mk_document (Some []))))) in
  exists msg,
    fetch_daily_articles E (mkdate 2024 1 1)
    = ([HttpGet (fetch_url (mkdate 2024 1 1));
        Stderr ("Warning: Unexpected error for date "
                ++ str_timestamp (mkdate 2024 1 1) ++ ": " ++ msg)],
       Ok []).
Proof.
  apply (fetch_malformed_body
           (mk_env Sample.strptime_ascii (mkdate 2024 3 1) Sample.strptime_ascii
              (fun _ => Returned (mk_response 200 "OK"
                                    (inr (mk_document (Some []))))))
           (mkdate 2024 1 1)
           (mk_response 200 "OK" (inr (mk_document (Some [])))));
    [reflexivity|cbn; discriminate|cbn; lia|].
  right. eexists. split; [reflexivity|]. right. left. reflexivity.
Defined.

(** ** [process_data] and the days it covers *)

Lemma all_rows_In E dates r :
  In r (all_rows E dates) <->
  exists d a, In d dates /\ In a (daily_articles E d) /\ r = set_date d a.
Proof.
  unfold all_rows. rewrite in_flat_map. split.
  - intros (d & Hd & Hr). apply in_map_iff in Hr as (a & <- & Ha).
    exists d, a. auto.
  - intros (d & a & Hd & Ha & ->). exists d. split; [assumption|].
    now apply in_map.
Qed.

Lemma filter_flat_map {A B} (p : B -> bool) (f : A -> list B) l :
  filter p (flat_map f l) = flat_map (fun x => filter p (f x)) l.
Proof.
  induction l as [|x t IH]; [reflexivity|].
  cbn [flat_map]. now rewrite filter_app, IH.
Qed.

Lemma filter_all {A} (p : A -> bool) l :
  (forall x, In x l -> p x = true) -> filter p l = l.
Proof.
  induction l as [|x t IH]; intros H; [reflexivity|].
  cbn [filter]. rewrite (H x (or_introl eq_refl)). f_equal.
  apply IH. intros y Hy. apply H. now right.
Qed.

Lemma date_leb_spec a b :
  date_leb a b = true <-> date_ltb a b = true \/ a = b.
Proof. unfold date_leb. now rewrite orb_true_iff, date_eqb_eq. Qed.

Lemma date_leb_ltb_trans a b c :
  date_leb a b = true -> date_ltb b c = true -> date_ltb a c = true.
Proof.
  rewrite date_leb_spec. intros [H| ->]; [|auto].
  rewrite !date_ltb_spec in *. lia.
Qed.

Lemma date_leb_trans a b c :
  date_leb a b = true -> date_leb b c = true -> date_leb a c = true.
Proof.
  intros H1 H2. apply date_leb_spec in H2 as [H2| <-]; [|assumption].
  apply date_leb_spec. left. eapply date_leb_ltb_trans; eassumption.
Qed.

Lemma process_data_some E start_date end_date dates df_top m :
  outcome_of (date_range E start_date end_date) = Ok dates ->
  outcome_of (process_data E start_date end_date) = Ok (Some df_top, m) ->
  all_rows E dates <> []
  /\ df_top
     = filter (fun r => isin (top_articles_of (all_rows E dates))
                          (row_article r))
         (all_rows E dates)
  /\ m = compute_metrics (all_rows E dates).
Proof.
  intros Hr Hp.
  rewrite (process_data_spec _ _ _ _ Hr), outcome_pair in Hp.
  assert (Hne : all_rows E dates <> [])
    by (intros Hnil; rewrite Hnil in Hp; discriminate).
  rewrite (summarize_nonempty _ Hne) in Hp.
  injection Hp as <- <-. auto.
Qed.

(** X6.  Every row of the frame [process_data] returns is an article the
    API listed for some day of the range, stamped with that very day: the
    row's date is one of the days fetched and its article, views and rank
    are an entry of that day's answer. *)
Theorem rows_carry_their_day E start_date end_date dates df_top m :
  outcome_of (date_range E start_date end_date) = Ok dates ->
  outcome_of (process_data E start_date end_date) = Ok (Some df_top, m) ->
  forall r, In r df_top ->
    In (row_date r) dates
    /\ In (api_article_of r) (daily_articles E (row_date r)).
Proof.
  intros Hr Hp r Hin.
  destruct (process_data_some _ _ _ _ _ _ Hr Hp) as (_ & -> & _).
  apply filter_In in Hin as [Hin _].
  apply all_rows_In in Hin as (d & a & Hd & Ha & ->).
  destruct a; cbn. auto.
Qed.

Lemma rows_carry_their_day_witness :
  In (set_date (mkdate 2024 1 3) (Sample.entry 5)) SampleRun.frame
  /\ In (row_date (set_date (mkdate 2024 1 3) (Sample.entry 5))) SampleRun.days
  /\ In (api_article_of (set_date (mkdate 2024 1 3) (Sample.entry 5)))
        (daily_articles Sample.env
           (row_date (set_date (mkdate 2024 1 3) (Sample.entry 5)))).
Proof.
  assert (Hin : In (set_date (mkdate 2024 1 3) (Sample.entry 5)) SampleRun.frame)
    by (vm_compute; repeat (first [left; reflexivity|right])).
  split; [exact Hin|].
  apply (rows_carry_their_day Sample.env "20240101" "20240103" SampleRun.days
           SampleRun.frame (compute_metrics SampleRun.rows));
    [vm_compute; reflexivity|vm_compute; reflexivity|exact Hin].
Defined.

(** X7.  With at most 20 distinct articles nothing is filtered out: the
    frame returned is the whole of the fetched rows, in the order fetched. *)
Theorem few_articles_keep_all E start_date end_date dates :
  outcome_of (date_range E start_date end_date) = Ok dates ->
  all_rows E dates <> [] ->
  (nunique (map row_article (all_rows E dates)) <= 20)%nat ->
  outcome_of (process_data E start_date end_date)
  = Ok (Some (all_rows E dates), compute_metrics (all_rows E dates)).
Proof.
  intros Hr Hne Hfew.
  rewrite (process_data_spec _ _ _ _ Hr), outcome_pair,
    (summarize_nonempty _ Hne).
  rewrite filter_all; [reflexivity|].
  intros r Hin. apply isin_In.
  set (df := all_rows E dates) in *.
  assert (Hincl : incl (nodup string_dec (map row_article df))
                    (top_articles_of df)).
  { apply NoDup_length_incl.
    - apply top_articles_NoDup.
    - rewrite top_articles_length. unfold nunique, TOP_ARTICLES_COUNT in *.
      lia.
    - intros a Ha. apply nodup_In. now apply top_articles_In. }
  apply Hincl, nodup_In, in_map, Hin.
Qed.

Lemma few_articles_keep_all_witness :
  outcome_of (process_data Sample.env "20240103" "20240104")
  = Ok (Some (all_rows Sample.env [mkdate 2024 1 3; mkdate 2024 1 4]),
        compute_metrics (all_rows Sample.env [mkdate 2024 1 3; mkdate 2024 1 4])).
Proof.
  apply (few_articles_keep_all Sample.env "20240103" "20240104");
    [vm_compute; reflexivity|vm_compute; discriminate|vm_compute; lia].
Defined.

(** X8.  The frame keeps the order of fetching: it is, day after day in
    the order of the range, that day's entries in the API's order, with the
    entries of articles outside the top ones dropped. *)
Theorem frame_in_fetch_order E start_date end_date dates df_top m :
  outcome_of (date_range E start_date end_date) = Ok dates ->
  outcome_of (process_data E start_date end_date) = Ok (Some df_top, m) ->
  df_top
  = flat_map
      (fun d =>
         filter (fun r => isin (top_articles_of (all_rows E dates))
                            (row_article r))
           (map (set_date d) (daily_articles E d)))
      dates.
Proof.
  intros Hr Hp.
  destruct (process_data_some _ _ _ _ _ _ Hr Hp) as (_ & -> & _).
  unfold all_rows at 2. apply filter_flat_map.
Qed.

Lemma frame_in_fetch_order_witness :
  SampleRun.frame
  = flat_map
      (fun d =>
         filter (fun r => isin (top_articles_of (all_rows Sample.env SampleRun.days))
                            (row_article r))
           (map (set_date d) (daily_articles Sample.env d)))
      SampleRun.days.
Proof.
  apply (frame_in_fetch_order Sample.env "20240101" "20240103" SampleRun.days
           SampleRun.frame (compute_metrics SampleRun.rows));
    vm_compute; reflexivity.
Defined.

(** X9.  Called with an end day that pandas reads as earlier than the start
    day, [process_data] has no day to iterate over: it makes no request and
    returns [(None, (None, None, None))]. *)
Theorem empty_range_no_request E start_date end_date s e :
  to_timestamp E start_date = Some s ->
  to_timestamp E end_date = Some e ->
  toordinal e < toordinal s ->
  http_gets (events (process_data E start_date end_date)) = []
  /\ outcome_of (process_data E start_date end_date)
     = Ok (None, (None, None, None)).
Proof.
  intros Hs He Hlt.
  rewrite (process_data_spec E start_date end_date []).
  - split; reflexivity.
  - rewrite (date_range_agreed _ _ _ _ _ Hs He). unfold day_ordinals.
    replace (Z.to_nat (toordinal e - toordinal s + 1)) with 0%nat by lia.
    reflexivity.
Qed.

Lemma empty_range_no_request_witness :
  http_gets (events (process_data Sample.env "20240105" "20240101")) = []
  /\ outcome_of (process_data Sample.env "20240105" "20240101")
     = Ok (None, (None, None, None)).
Proof.
  apply (empty_range_no_request Sample.env "20240105" "20240101"
           (mkdate 2024 1 5) (mkdate 2024 1 1));
    [reflexivity|reflexivity|vm_compute; reflexivity].
Defined.

(** X10.  A validated range costs between 2 and 366 requests: the end is
    at least one day and at most 365 days after the start, and both ends
    are fetched. *)
Theorem accepted_range_request_count E start end_ ds de :
  validate_dates E start end_ = None ->
  strptime_Ymd E start = Some ds -> strptime_Ymd E end_ = Some de ->
  valid_date ds -> valid_date de ->
  to_timestamp E start = Some ds -> to_timestamp E end_ = Some de ->
  (2 <= List.length (http_gets (events (process_data E start end_))) <= 366)%nat.
Proof.
  intros Hv Hs He Vs Ve Ts Te.
  apply validate_dates_accepts in Hv
    as (ds' & de' & Hs' & He' & _ & _ & Hlt & _ & Hmax).
  rewrite Hs in Hs'. rewrite He in He'.
  injection Hs' as <-. injection He' as <-.
  rewrite (process_data_spec _ _ _ _ (date_range_agreed _ _ _ _ _ Ts Te)).
  rewrite events_pair, fetch_loop_gets, !length_map.
  apply toordinal_lt in Hlt; auto using valid_date_calendar.
  unfold days_between in Hmax.
  pose proof (day_ordinals_length (toordinal ds) (toordinal de) ltac:(lia)).
  lia.
Qed.

Lemma accepted_range_request_count_witness :
  (2 <= List.length
          (http_gets (events (process_data Sample.env "20240101" "20240105")))
   <= 366)%nat.
Proof.
  apply (accepted_range_request_count Sample.env "20240101" "20240105"
           (mkdate 2024 1 1) (mkdate 2024 1 5));
    vm_compute; reflexivity.
Defined.

(** X11.  A validated run in which pandas reads the two arguments as the
    days [strptime] read only ever asks for days the API can have: every
    day requested is on or after 2015-07-01 and strictly before today. *)
Theorem requested_days_in_bounds E start end_ ds de :
  validate_dates E start end_ = None ->
  strptime_Ymd E start = Some ds -> strptime_Ymd E end_ = Some de ->
  valid_date ds -> valid_date de ->
  to_timestamp E start = Some ds -> to_timestamp E end_ = Some de ->
  exists days,
    http_gets (events (main E start end_)) = map fetch_url days
    /\ forall d, In d days ->
         date_leb API_START_DATE d = true
         /\ date_ltb d (current_date E) = true.
Proof.
  intros Hv Hs He Vs Ve Ts Te.
  pose proof (date_range_agreed _ _ _ _ _ Ts Te) as Hr.
  exists (map fromordinal (day_ordinals (toordinal ds) (toordinal de))).
  split.
  - destruct (list_eq_dec (fun a b : row => ltac:(repeat decide equality))
                (all_rows E (map fromordinal
                               (day_ordinals (toordinal ds) (toordinal de))))
                []) as [Hnil|Hne].
    + rewrite (main_no_data _ _ _ _ Hv Hr Hnil), events_pair, http_gets_app,
        fetch_loop_gets. cbn. now rewrite app_nil_r.
    + destruct (main_with_data _ _ _ _ Hv Hr Hne) as (fig & Hmain & _).
      rewrite Hmain, events_pair, http_gets_app, fetch_loop_gets. cbn.
      now rewrite app_nil_r.
  - apply validate_dates_accepts in Hv
      as (ds' & de' & Hs' & He' & _ & Htoday & _ & Hapi & _).
    rewrite Hs in Hs'. rewrite He in He'.
    injection Hs' as <-. injection He' as <-.
    intros d Hd. apply days_in_range in Hd as (_ & L1 & L2); auto.
    split.
    + eapply date_leb_trans; eassumption.
    + eapply date_leb_ltb_trans; eassumption.
Qed.

Lemma requested_days_in_bounds_witness :
  exists days,
    http_gets (events (main Sample.env "20240101" "20240105"))
    = map fetch_url days
    /\ forall d, In d days ->
         date_leb API_START_DATE d = true
         /\ date_ltb d (current_date Sample.env) = true.
Proof.
  apply (requested_days_in_bounds Sample.env "20240101" "20240105"
           (mkdate 2024 1 1) (mkdate 2024 1 5));
    vm_compute; reflexivity.
Defined.

(** ** [create_visualization] *)

Lemma date_leb_refl a : date_leb a a = true.
Proof. apply date_leb_spec. now right. Qed.

Lemma date_ltb_leb a b : date_ltb a b = true -> date_leb a b = true.
Proof. intros H. apply date_leb_spec. now left. Qed.

Lemma date_not_ltb_leb a b : date_ltb a b = false -> date_leb b a = true.
Proof. intros H. now rewrite date_leb_negb, H. Qed.

Lemma fold_min_spec t : forall x,
  let r := fold_left (fun m d => if date_ltb d m then d else m) t x in
  In r (x :: t) /\ forall d, In d (x :: t) -> date_leb r d = true.
Proof.
  induction t as [|y t IH]; intros x; cbn [fold_left].
  - split; [now left|]. intros d [<-|[]]. apply date_leb_refl.
  - destruct (IH (if date_ltb y x then y else x)) as [Hin Hall].
    cbv zeta. split.
    + destruct Hin as [Hin|Hin]; [|right; now right].
      rewrite <- Hin. destruct (date_ltb y x); [right|]; now left.
    + intros d Hd.
      pose proof (Hall _ (or_introl eq_refl)) as Hfirst.
      destruct Hd as [<-|[<-|Hd]]; [| |apply Hall; now right].
      * eapply date_leb_trans; [exact Hfirst|].
        destruct (date_ltb y x) eqn:Hlt;
          [now apply date_ltb_leb|apply date_leb_refl].
      * eapply date_leb_trans; [exact Hfirst|].
        destruct (date_ltb y x) eqn:Hlt;
          [apply date_leb_refl|now apply date_not_ltb_leb].
Qed.

Lemma fold_max_date_spec t : forall x,
  let r := fold_left (fun m d => if date_ltb m d then d else m) t x in
  In r (x :: t) /\ forall d, In d (x :: t) -> date_leb d r = true.
Proof.
  induction t as [|y t IH]; intros x; cbn [fold_left].
  - split; [now left|]. intros d [<-|[]]. apply date_leb_refl.
  - destruct (IH (if date_ltb x y then y else x)) as [Hin Hall].
    cbv zeta. split.
    + destruct Hin as [Hin|Hin]; [|right; now right].
      rewrite <- Hin. destruct (date_ltb x y); [right|]; now left.
    + intros d Hd.
      pose proof (Hall _ (or_introl eq_refl)) as Hfirst.
      destruct Hd as [<-|[<-|Hd]]; [| |apply Hall; now right].
      * eapply date_leb_trans; [|exact Hfirst].
        destruct (date_ltb x y) eqn:Hlt;
          [now apply date_ltb_leb|apply date_leb_refl].
      * eapply date_leb_trans; [|exact Hfirst].
        destruct (date_ltb x y) eqn:Hlt;
          [apply date_leb_refl|now apply date_not_ltb_leb].
Qed.

Lemma date_min_spec l lo :
  date_min l = Some lo ->
  In lo l /\ forall d, In d l -> date_leb lo d = true.
Proof.
  destruct l as [|x t]; [discriminate|]. cbn [date_min].
  intros H. injection H as <-. apply fold_min_spec.
Qed.

Lemma date_max_spec l hi :
  date_max l = Some hi ->
  In hi l /\ forall d, In d l -> date_leb d hi = true.
Proof.
  destruct l as [|x t]; [discriminate|]. cbn [date_max].
  intros H. injection H as <-. apply fold_max_date_spec.
Qed.

(** The figure [create_visualization] saves, field by field. *)
Lemma create_visualization_chart df_top m :
  df_top <> [] ->
  exists lo hi fig,
    date_min (map row_date df_top) = Some lo
    /\ date_max (map row_date df_top) = Some hi
    /\ create_visualization df_top m
       = ([SaveFig "top_articles.png" fig;
           Stdout "Visualization saved to top_articles.png"], Ok tt)
    /\ col_order fig
       = map fst (sort_values_desc (groupby_article series_max df_top))
    /\ col_wrap fig
       = Z.min 5 (Z.of_nat (List.length
                              (map fst (sort_values_desc
                                          (groupby_article series_max df_top)))))
    /\ title_period fig
       = (strftime_iso lo ++ " to " ++ strftime_iso hi)%string
    /\ (date_format fig, major_locator fig)
       = (let n_days := days_between hi lo + 1 in
          if n_days <=? 7 then ("%m/%d", DayLocator 1)
          else if n_days <=? 30 then ("%m/%d", DayLocator 5)
          else if n_days <=? 90 then ("%b %d", DayLocator 14)
          else ("%b %Y", MonthLocator (Z.max 1 (n_days / 30 / 4)))).
Proof.
  intros Hne.
  assert (Hd : map row_date df_top <> [])
    by (intros Hm; apply map_eq_nil in Hm; now apply Hne).
  destruct (date_min_nonempty _ Hd) as (lo & Hlo).
  destruct (date_max_nonempty _ Hd) as (hi & Hhi).
  exists lo, hi. unfold create_visualization. rewrite Hlo, Hhi. cbv zeta.
  destruct (if days_between hi lo + 1 <=? 7 then ("%m/%d", DayLocator 1)
            else if days_between hi lo + 1 <=? 30 then ("%m/%d", DayLocator 5)
            else if days_between hi lo + 1 <=? 90 then ("%b %d", DayLocator 14)
            else ("%b %Y", MonthLocator (Z.max 1 ((days_between hi lo + 1) / 30 / 4))))
    as [fmt loc].
  eexists. repeat split; reflexivity.
Qed.

Lemma sorted_keys_by_value {K} (f : K -> Z) (l : list (K * Z)) :
  StronglySorted (fun a b => (snd b <=? snd a) = true) l ->
  (forall p, In p l -> snd p = f (fst p)) ->
  StronglySorted (fun a b => f b <= f a) (map fst l).
Proof.
  induction 1 as [|p t Hs IH Hall]; intros Hval; cbn [map]; constructor.
  - apply IH. intros q Hq. apply Hval. now right.
  - apply Forall_forall. intros b Hb.
    apply in_map_iff in Hb as (q & <- & Hq).
    rewrite Forall_forall in Hall. specialize (Hall q Hq).
    apply Z.leb_le in Hall.
    rewrite <- (Hval p (or_introl eq_refl)), <- (Hval q (or_intror Hq)).
    exact Hall.
Qed.

(** X12.  The facets are ordered by each article's peak, not its total:
    [col_order] lists every article of the frame exactly once, in
    non-increasing order of the largest single-day view count the article
    has in the frame, and the grid wraps after min(5, number of articles)
    columns. *)
Theorem facets_sorted_by_peak df_top m :
  df_top <> [] ->
  exists fig,
    create_visualization df_top m
    = ([SaveFig "top_articles.png" fig;
        Stdout "Visualization saved to top_articles.png"], Ok tt)
    /\ NoDup (col_order fig)
    /\ (forall a, In a (col_order fig) <-> In a (map row_article df_top))
    /\ StronglySorted
         (fun a b => article_peak df_top b <= article_peak df_top a)
         (col_order fig)
    /\ col_wrap fig = Z.min 5 (Z.of_nat (nunique (map row_article df_top))).
Proof.
  intros Hne.
  destruct (create_visualization_chart df_top m Hne)
    as (lo & hi & fig & _ & _ & Hcv & Horder & Hwrap & _).
  exists fig. split; [exact Hcv|].
  assert (Hperm : Permutation
                    (sort_values_desc (groupby_article series_max df_top))
                    (groupby_article series_max df_top))
    by apply isort_perm.
  assert (Hkeys : Permutation (col_order fig)
                    (nodup string_dec (map row_article df_top))).
  { rewrite Horder, (Permutation_map fst Hperm). apply groupby_keys_perm. }
  split; [eapply Permutation_NoDup;
            [apply Permutation_sym, Hkeys|apply NoDup_nodup]|].
  split.
  { intros a. rewrite <- (nodup_In string_dec (map row_article df_top)).
    split; apply Permutation_in;
      [exact Hkeys|apply Permutation_sym, Hkeys]. }
  split.
  - rewrite Horder.
    assert (Hsorted : StronglySorted (fun a b => (snd b <=? snd a) = true)
                        (sort_values_desc (groupby_article series_max df_top))).
    { apply isort_sorted.
      - intros x y. apply by_value_total.
      - intros x y z. apply by_value_trans. }
    assert (Hval : forall p,
               In p (sort_values_desc (groupby_article series_max df_top)) ->
               snd p = article_peak df_top (fst p)).
    { intros [a v] Hin. cbn [fst snd].
      apply (groupby_article_value series_max df_top a v).
      eapply Permutation_in; eassumption. }
    exact (sorted_keys_by_value _ _ Hsorted Hval).
  - rewrite Hwrap, <- Horder, (Permutation_length Hkeys). reflexivity.
Qed.

Lemma facets_sorted_by_peak_witness :
  let df := all_rows Sample.env [mkdate 2024 1 3] in
  exists fig,
    create_visualization df (None, None, None)
    = ([SaveFig "top_articles.png" fig;
        Stdout "Visualization saved to top_articles.png"], Ok tt)
    /\ NoDup (col_order fig)
    /\ (forall a, In a (col_order fig) <-> In a (map row_article df))
    /\ StronglySorted
         (fun a b => article_peak df b <= article_peak df a) (col_order fig)
    /\ col_wrap fig = Z.min 5 (Z.of_nat (nunique (map row_article df))).
Proof.
  apply (facets_sorted_by_peak (all_rows Sample.env [mkdate 2024 1 3])).
  vm_compute. discriminate.
Defined.

(** X13.  The period in the title is the span of the days that have rows
    in the chart, not the range asked for: it runs from the earliest to the
    latest date of the frame, both of which are dates of rows, and every
    row lies between them. *)
Theorem title_period_spans_rows df_top m :
  df_top <> [] ->
  exists fig lo hi,
    create_visualization df_top m
    = ([SaveFig "top_articles.png" fig;
        Stdout "Visualization saved to top_articles.png"], Ok tt)
    /\ title_period fig
       = (strftime_iso lo ++ " to " ++ strftime_iso hi)%string
    /\ (exists r, In r df_top /\ row_date r = lo)
    /\ (exists r, In r df_top /\ row_date r = hi)
    /\ forall r, In r df_top ->
         date_leb lo (row_date r) = true /\ date_leb (row_date r) hi = true.
Proof.
  intros Hne.
  destruct (create_visualization_chart df_top m Hne)
    as (lo & hi & fig & Hlo & Hhi & Hcv & _ & _ & Hperiod & _).
  destruct (date_min_spec _ _ Hlo) as [Hlo_in Hlo_le].
  destruct (date_max_spec _ _ Hhi) as [Hhi_in Hhi_le].
  exists fig, lo, hi. split; [exact Hcv|]. split; [exact Hperiod|].
  apply in_map_iff in Hlo_in as (r1 & H1 & Hr1).
  apply in_map_iff in Hhi_in as (r2 & H2 & Hr2).
  split; [now exists r1|]. split; [now exists r2|].
  intros r Hr. split; [apply Hlo_le|apply Hhi_le]; now apply in_map.
Qed.

Lemma title_period_spans_rows_witness :
  let df := all_rows Sample.env [mkdate 2024 1 1; mkdate 2024 1 3] in
  exists fig lo hi,
    create_visualization df (None, None, None)
    = ([SaveFig "top_articles.png" fig;
        Stdout "Visualization saved to top_articles.png"], Ok tt)
    /\ title_period fig
       = (strftime_iso lo ++ " to " ++ strftime_iso hi)%string
    /\ (exists r, In r df /\ row_date r = lo)
    /\ (exists r, In r df /\ row_date r = hi)
    /\ forall r, In r df ->
         date_leb lo (row_date r) = true /\ date_leb (row_date r) hi = true.
Proof.
  apply (title_period_spans_rows
           (all_rows Sample.env [mkdate 2024 1 1; mkdate 2024 1 3])).
  vm_compute. discriminate.
Defined.

(** ** [main], run by run *)

Lemma fetch_daily_articles_phase E d :
  forallb is_fetch_event (events (fetch_daily_articles E d)) = true
  /\ stdout_lines (events (fetch_daily_articles E d)) = []
  /\ List.length (stderr_lines (events (fetch_daily_articles E d)))
     = (if attempt_raises E d then 1 else 0)%nat.
Proof.
  unfold fetch_daily_articles, attempt_raises.
  rewrite (fetch_attempt_shape E (fetch_url d)), outcome_pair.
  destruct (outcome_of (fetch_attempt E (fetch_url d))) as [l|e].
  - repeat split; reflexivity.
  - destruct e; repeat split; reflexivity.
Qed.

Lemma stdout_lines_app a b :
  stdout_lines (a ++ b) = stdout_lines a ++ stdout_lines b.
Proof. apply flat_map_app. Qed.

Lemma stderr_lines_app a b :
  stderr_lines (a ++ b) = stderr_lines a ++ stderr_lines b.
Proof. apply flat_map_app. Qed.

Lemma fetch_loop_phase E dates :
  let evs := flat_map (fun d => events (fetch_daily_articles E d)) dates in
  forallb is_fetch_event evs = true
  /\ stdout_lines evs = []
  /\ List.length (stderr_lines evs)
     = List.length (filter (attempt_raises E) dates).
Proof.
  induction dates as [|d rest IH]; [repeat split; reflexivity|].
  cbv zeta in *. cbn [flat_map filter].
  destruct IH as (I1 & I2 & I3).
  destruct (fetch_daily_articles_phase E d) as (H1 & H2 & H3).
  rewrite forallb_app, stdout_lines_app, stderr_lines_app, length_app,
    H1, H2, H3, I1, I2, I3.
  repeat split. destruct (attempt_raises E d); reflexivity.
Qed.

(** The four ways a run of [main] can go. *)
Lemma main_cases E start end_ :
  (exists msg,
     validate_dates E start end_ = Some msg
     /\ main E start end_ = ([Stdout msg], Ok tt))
  \/ (validate_dates E start end_ = None
      /\ exists x,
           outcome_of (date_range E start end_) = Raise x
           /\ main E start end_ = ([], Raise x))
  \/ (validate_dates E start end_ = None
      /\ exists dates,
           outcome_of (date_range E start end_) = Ok dates
           /\ all_rows E dates = []
           /\ main E start end_
              = (flat_map (fun d => events (fetch_daily_articles E d)) dates
                 ++ [Stdout "No data found for the specified date range"],
                 Ok tt))
  \/ (validate_dates E start end_ = None
      /\ exists dates fig,
           outcome_of (date_range E start end_) = Ok dates
           /\ all_rows E dates <> []
           /\ main E start end_
              = (flat_map (fun d => events (fetch_daily_articles E d)) dates
                 ++ [SaveFig "top_articles.png" fig;
                     Stdout "Visualization saved to top_articles.png"],
                 Ok tt)).
Proof.
  destruct (validate_dates E start end_) as [msg|] eqn:Hv.
  { left. exists msg. split; [reflexivity|now apply main_rejected]. }
  right.
  destruct (outcome_of (date_range E start end_)) as [dates|x] eqn:Hr.
  - right.
    destruct (list_eq_dec (fun a b : row => ltac:(repeat decide equality))
                (all_rows E dates) []) as [Hnil|Hne].
    + left. split; [reflexivity|]. exists dates.
      split; [reflexivity|]. split; [assumption|].
      now apply main_no_data.
    + right. split; [reflexivity|].
      destruct (main_with_data _ _ _ _ Hv Hr Hne) as (fig & Hmain & _).
      exists dates, fig. auto.
  - left. split; [reflexivity|]. exists x. split; [reflexivity|].
    now apply main_range_error.
Qed.

(** X14.  A run that ends normally prints exactly one line on stdout, as
    its last event: the validation message, the no-data notice or the
    confirmation that the chart was saved.  A run that ends in an exception
    (pandas could not read an endpoint) has printed and requested
    nothing. *)
Theorem main_prints_one_line E start end_ :
  (outcome_of (main E start end_) = Ok tt ->
   exists before line,
     events (main E start end_) = before ++ [Stdout line]
     /\ stdout_lines before = []
     /\ (validate_dates E start end_ = Some line
         \/ line = "No data found for the specified date range"
         \/ line = "Visualization saved to top_articles.png"))
  /\ (forall x, outcome_of (main E start end_) = Raise x ->
                events (main E start end_) = []).
Proof.
  destruct (main_cases E start end_)
    as [(msg & Hv & Hm)|[(Hv & x & Hr & Hm)
       |[(Hv & dates & Hr & Hnil & Hm)|(Hv & dates & fig & Hr & Hne & Hm)]]];
    rewrite Hm, events_pair, outcome_pair; split;
    try (intros ? Hx; discriminate); try (intros Hx; discriminate).
  - intros _. exists [], msg. repeat split. now left.
  - intros y _. reflexivity.
  - intros _.
    exists (flat_map (fun d => events (fetch_daily_articles E d)) dates),
      "No data found for the specified date range".
    split; [reflexivity|]. split; [apply fetch_loop_phase|]. right. now left.
  - intros _.
    exists (flat_map (fun d => events (fetch_daily_articles E d)) dates
            ++ [SaveFig "top_articles.png" fig]),
      "Visualization saved to top_articles.png".
    split; [now rewrite <- app_assoc|]. split; [|right; now right].
    rewrite stdout_lines_app. cbn.
    rewrite app_nil_r. apply fetch_loop_phase.
Qed.

Lemma main_prints_one_line_witness :
  outcome_of (main Sample.env "20240104" "20240105") = Ok tt
  /\ exists before line,
       events (main Sample.env "20240104" "20240105") = before ++ [Stdout line]
       /\ stdout_lines before = []
       /\ (validate_dates Sample.env "20240104" "20240105" = Some line
           \/ line = "No data found for the specified date range"
           \/ line = "Visualization saved to top_articles.png").
Proof.
  assert (H : outcome_of (main Sample.env "20240104" "20240105") = Ok tt)
    by (vm_compute; reflexivity).
  split; [exact H|].
  exact (proj1 (main_prints_one_line Sample.env "20240104" "20240105") H).
Defined.

(** X15.  Fetching comes first and output last: the events of any run
    split into a fetching part made of requests and warnings only, followed
    by at most two output events (the saved figure, the stdout line) among
    which there is no request and no warning. *)
Theorem requests_precede_output E start end_ :
  exists fetching output,
    events (main E start end_) = fetching ++ output
    /\ forallb is_fetch_event fetching = true
    /\ forallb (fun e => negb (is_fetch_event e)) output = true
    /\ (List.length output <= 2)%nat.
Proof.
  destruct (main_cases E start end_)
    as [(msg & Hv & Hm)|[(Hv & x & Hr & Hm)
       |[(Hv & dates & Hr & Hnil & Hm)|(Hv & dates & fig & Hr & Hne & Hm)]]];
    rewrite Hm, events_pair.
  - exists [], [Stdout msg]. repeat split. cbn. lia.
  - exists [], []. repeat split. cbn. lia.
  - eexists. eexists. split; [reflexivity|].
    split; [apply fetch_loop_phase|]. split; [reflexivity|cbn; lia].
  - eexists. eexists. split; [reflexivity|].
    split; [apply fetch_loop_phase|]. split; [reflexivity|cbn; lia].
Qed.

(** X16.  One warning per failed day: the number of warning lines the
    script prints to stderr during [process_data] is the number of days
    whose [try] block raised; a day answered by a 404 or by a usable body
    prints none.  (The progress bar is [tqdm]'s, not a warning.) *)
Theorem one_warning_per_failed_day E start_date end_date dates :
  outcome_of (date_range E start_date end_date) = Ok dates ->
  List.length (stderr_lines (events (process_data E start_date end_date)))
  = List.length (filter (attempt_raises E) dates)
  /\ (List.length (stderr_lines (events (process_data E start_date end_date)))
      <= List.length dates)%nat.
Proof.
  intros Hr. rewrite (process_data_spec _ _ _ _ Hr), events_pair.
  destruct (fetch_loop_phase E dates) as (_ & _ & H).
  cbv zeta in H. rewrite H. split; [reflexivity|apply filter_length_le].
Qed.

Lemma one_warning_per_failed_day_witness :
  List.length
    (stderr_lines (events (process_data Sample.env "20240101" "20240105")))
  = List.length
      (filter (attempt_raises Sample.env)
         [mkdate 2024 1 1; mkdate 2024 1 2; mkdate 2024 1 3; mkdate 2024 1 4;
          mkdate 2024 1 5])
  /\ (List.length
        (stderr_lines (events (process_data Sample.env "20240101" "20240105")))
      <= List.length
           [mkdate 2024 1 1; mkdate 2024 1 2; mkdate 2024 1 3; mkdate 2024 1 4;
            mkdate 2024 1 5])%nat.
Proof.
  apply (one_warning_per_failed_day Sample.env "20240101" "20240105").
  vm_compute. reflexivity.
Defined.

(** ** The saved figure, end to end *)

Lemma saved_figure E start end_ dates fname fig :
  validate_dates E start end_ = None ->
  outcome_of (date_range E start end_) = Ok dates ->
  In (SaveFig fname fig) (events (main E start end_)) ->
  all_rows E dates <> []
  /\ fname = "top_articles.png"
  /\ create_visualization
       (filter (fun r => isin (top_articles_of (all_rows E dates))
                           (row_article r))
          (all_rows E dates))
       (compute_metrics (all_rows E dates))
     = ([SaveFig "top_articles.png" fig;
         Stdout "Visualization saved to top_articles.png"], Ok tt).
Proof.
  intros Hv Hr Hin.
  assert (Hfetch : ~ In (SaveFig fname fig)
                     (flat_map (fun d => events (fetch_daily_articles E d))
                        dates)).
  { intros H. destruct (fetch_loop_phase E dates) as (Hall & _).
    cbv zeta in Hall. rewrite forallb_forall in Hall.
    specialize (Hall _ H). discriminate. }
  destruct (list_eq_dec (fun a b : row => ltac:(repeat decide equality))
              (all_rows E dates) []) as [Hnil|Hne].
  - rewrite (main_no_data _ _ _ _ Hv Hr Hnil), events_pair in Hin.
    apply in_app_or in Hin as [Hin|[Hin|[]]]; [contradiction|discriminate].
  - split; [assumption|].
    pose proof (filter_top_nonempty _ Hne) as Htop.
    destruct (create_visualization_spec _ (compute_metrics (all_rows E dates))
                Htop) as (fig' & Hcv & _).
    rewrite (main_accepted _ _ _ Hv), (process_data_spec _ _ _ _ Hr),
      (summarize_nonempty _ Hne) in Hin.
    cbn [bind] in Hin. rewrite Hcv in Hin. rewrite events_pair in Hin.
    apply in_app_or in Hin as [Hin|[Hin|[Hin|[]]]];
      [contradiction| |discriminate].
    injection Hin as <- <-. split; [reflexivity|exact Hcv].
Qed.

(** X17.  The figure is drawn from what [process_data] returned: whenever
    a validated run saves a figure, its data is the frame of the top
    articles' rows and the numbers in its title are the metrics computed
    over all fetched rows. *)
Theorem figure_shows_process_data E start end_ dates fname fig :
  validate_dates E start end_ = None ->
  outcome_of (date_range E start end_) = Ok dates ->
  In (SaveFig fname fig) (events (main E start end_)) ->
  outcome_of (process_data E start end_)
  = Ok (Some (chart_data fig), title_metrics fig)
  /\ title_metrics fig = compute_metrics (all_rows E dates).
Proof.
  intros Hv Hr Hin.
  destruct (saved_figure _ _ _ _ _ _ Hv Hr Hin) as (Hne & _ & Hcv).
  destruct (create_visualization_spec
              (filter (fun r => isin (top_articles_of (all_rows E dates))
                                  (row_article r))
                 (all_rows E dates))
              (compute_metrics (all_rows E dates))
              (filter_top_nonempty _ Hne))
    as (fig' & Hcv' & Hdata & Hm & _).
  rewrite Hcv in Hcv'. injection Hcv' as <-.
  rewrite (process_data_spec _ _ _ _ Hr), outcome_pair,
    (summarize_nonempty _ Hne), Hdata, Hm.
  split; reflexivity.
Qed.

Lemma figure_shows_process_data_witness :
  In (SaveFig "top_articles.png" SampleRun.figure)
     (events (main Sample.env "20240101" "20240103"))
  /\ outcome_of (process_data Sample.env "20240101" "20240103")
     = Ok (Some (chart_data SampleRun.figure), title_metrics SampleRun.figure)
  /\ title_metrics SampleRun.figure
     = compute_metrics (all_rows Sample.env SampleRun.days).
Proof.
  assert (Hin : In (SaveFig "top_articles.png" SampleRun.figure)
                   (events (main Sample.env "20240101" "20240103")))
    by (vm_compute; repeat (first [left; reflexivity|right])).
  split; [exact Hin|].
  apply (figure_shows_process_data Sample.env "20240101" "20240103"
           SampleRun.days "top_articles.png" SampleRun.figure);
    [vm_compute; reflexivity|vm_compute; reflexivity|exact Hin].
Defined.

(** X18.  In a validated run in which pandas reads the two arguments as the
    days [strptime] read, the time axis gets one of six tick settings: the
    chart never spans more than 366 days, so the ticks are daily (every 1,
    5 or 14 days) up to a span of 90 days and monthly beyond, every 1, 2
    or 3 months. *)
Theorem axis_ticks_in_validated_run E start end_ ds de fname fig :
  validate_dates E start end_ = None ->
  strptime_Ymd E start = Some ds -> strptime_Ymd E end_ = Some de ->
  valid_date ds -> valid_date de ->
  to_timestamp E start = Some ds -> to_timestamp E end_ = Some de ->
  In (SaveFig fname fig) (events (main E start end_)) ->
  (date_format fig = "%m/%d" /\ major_locator fig = DayLocator 1)
  \/ (date_format fig = "%m/%d" /\ major_locator fig = DayLocator 5)
  \/ (date_format fig = "%b %d" /\ major_locator fig = DayLocator 14)
  \/ (date_format fig = "%b %Y"
      /\ exists k, 1 <= k <= 3 /\ major_locator fig = MonthLocator k).
Proof.
  intros Hv Hs He Vs Ve Ts Te Hin.
  pose proof (date_range_agreed _ _ _ _ _ Ts Te) as Hr.
  destruct (saved_figure _ _ _ _ _ _ Hv Hr Hin) as (Hne & _ & Hcv).
  set (days := map fromordinal (day_ordinals (toordinal ds) (toordinal de))) in *.
  set (df_top := filter (fun r => isin (top_articles_of (all_rows E days))
                                    (row_article r))
                   (all_rows E days)) in *.
  destruct (create_visualization_chart df_top (compute_metrics (all_rows E days))
              (filter_top_nonempty _ Hne))
    as (lo & hi & fig' & Hlo & Hhi & Hcv' & _ & _ & _ & Haxis).
  rewrite Hcv in Hcv'. injection Hcv' as <-.
  apply validate_dates_accepts in Hv
    as (ds' & de' & Hs' & He' & _ & _ & _ & _ & Hmax).
  rewrite Hs in Hs'. rewrite He in He'.
  injection Hs' as <-. injection He' as <-.
  destruct (date_min_spec _ _ Hlo) as [Hlo_in Hlo_le].
  destruct (date_max_spec _ _ Hhi) as [Hhi_in _].
  assert (Hday : forall d, In d (map row_date df_top) ->
                   calendar_valid d
                   /\ toordinal ds <= toordinal d <= toordinal de).
  { intros d Hd. apply in_map_iff in Hd as (r & <- & Hrow).
    apply filter_In in Hrow as [Hrow _].
    apply all_rows_In in Hrow as (d & a & Hd & _ & ->). cbn [set_date row_date].
    apply in_map_iff in Hd as (n & <- & Hn). apply day_ordinals_In in Hn.
    split; [apply fromordinal_calendar_valid|].
    now rewrite toordinal_fromordinal. }
  destruct (Hday lo Hlo_in) as [Clo Blo].
  destruct (Hday hi Hhi_in) as [Chi Bhi].
  pose proof (Hlo_le hi Hhi_in) as Hle.
  apply date_leb_toordinal in Hle; auto.
  unfold days_between in Haxis, Hmax. cbv zeta in Haxis.
  set (n := toordinal hi - toordinal lo + 1) in *.
  assert (Hn : 1 <= n <= 366) by (unfold n; lia).
  destruct (Z.leb_spec n 7); [left; injection Haxis as -> ->; auto|].
  destruct (Z.leb_spec n 30);
    [right; left; injection Haxis as -> ->; auto|].
  destruct (Z.leb_spec n 90);
    [right; right; left; injection Haxis as -> ->; auto|].
  right. right. right. injection Haxis as -> ->. split; [reflexivity|].
  exists (Z.max 1 (n / 30 / 4)). split; [|reflexivity].
  assert (0 <= n / 30 / 4 <= 3).
  { rewrite Z.div_div by lia. split.
    - apply Z.div_pos; lia.
    - assert (n / (30 * 4) < 4) by (apply Z.div_lt_upper_bound; lia). lia. }
  lia.
Qed.

Lemma axis_ticks_in_validated_run_witness :
  In (SaveFig "top_articles.png" SampleRun.figure)
     (events (main Sample.env "20240101" "20240103"))
  /\ ((date_format SampleRun.figure = "%m/%d"
       /\ major_locator SampleRun.figure = DayLocator 1)
      \/ (date_format SampleRun.figure = "%m/%d"
          /\ major_locator SampleRun.figure = DayLocator 5)
      \/ (date_format SampleRun.figure = "%b %d"
          /\ major_locator SampleRun.figure = DayLocator 14)
      \/ (date_format SampleRun.figure = "%b %Y"
          /\ exists k, 1 <= k <= 3
                       /\ major_locator SampleRun.figure = MonthLocator k)).
Proof.
  assert (Hin : In (SaveFig "top_articles.png" SampleRun.figure)
                   (events (main Sample.env "20240101" "20240103")))
    by (vm_compute; repeat (first [left; reflexivity|right])).
  split; [exact Hin|].
  apply (axis_ticks_in_validated_run Sample.env "20240101" "20240103"
           (mkdate 2024 1 1) (mkdate 2024 1 3) "top_articles.png"
           SampleRun.figure);
    try (vm_compute; reflexivity).
  exact Hin.
Defined.

(** ** [human_format] *)

Section HumanFormatFacts.
Context {number : Type}.
Variable abs_ge_1000 : number -> bool.
Variable div_1000 : number -> number.
Variable format_2f : number -> string.

Lemma human_loop_spec fuel : forall num magnitude,
  (magnitude <= 4)%nat -> (4 - magnitude < fuel)%nat ->
  exists j,
    human_loop abs_ge_1000 div_1000 fuel num magnitude
    = (Nat.iter j div_1000 num, (magnitude + j)%nat)
    /\ (magnitude + j <= 4)%nat
    /\ (forall i, (i < j)%nat ->
                  abs_ge_1000 (Nat.iter i div_1000 num) = true)
    /\ ((magnitude + j < 4)%nat ->
        abs_ge_1000 (Nat.iter j div_1000 num) = false).
Proof.
  induction fuel as [|fuel IH]; intros num magnitude Hm Hfuel; [lia|].
  cbn [human_loop]. change (List.length units - 1)%nat with 4%nat.
  destruct (abs_ge_1000 num) eqn:Hge; cbn [andb].
  - destruct (Nat.ltb_spec magnitude 4) as [Hlt|Hnlt].
    + destruct (IH (div_1000 num) (S magnitude) ltac:(lia) ltac:(lia))
        as (j & Heq & Hle & Hbefore & Hafter).
      exists (S j). rewrite Nat.iter_succ_r. split; [rewrite Heq; f_equal; lia|].
      split; [lia|]. split.
      * intros [|i] Hi; [exact Hge|].
        rewrite Nat.iter_succ_r. apply Hbefore. lia.
      * intros Hlt'. apply Hafter. lia.
    + exists 0%nat. rewrite Nat.add_0_r. cbn [Nat.iter nat_rect].
      repeat split; try lia.
  - exists 0%nat. rewrite Nat.add_0_r. cbn [Nat.iter nat_rect].
    repeat split; try lia. intros _. exact Hge.
Qed.

End HumanFormatFacts.

(** X19.  [human_format] never runs out of units: it divides by 1000 some
    [k] times with [k] at most 4 and prints the result with the [k]-th of
    the suffixes '', K, M, B, T.  Every value before the last was at least
    1000 in absolute value, and unless the suffix is T the printed value is
    below 1000; so a number below 1000 is printed as it is, and anything
    beyond the trillions stays in T. *)
Theorem human_format_scaling {number : Type} (abs_ge_1000 : number -> bool)
    (div_1000 : number -> number) (format_2f : number -> string)
    (num : number) :
  exists k,
    (k <= 4)%nat
    /\ human_format abs_ge_1000 div_1000 format_2f num
       = (format_2f (Nat.iter k div_1000 num)
          ++ nth k [EmptyString; "K"; "M"; "B"; "T"] EmptyString)%string
    /\ (forall i, (i < k)%nat ->
                  abs_ge_1000 (Nat.iter i div_1000 num) = true)
    /\ ((k < 4)%nat -> abs_ge_1000 (Nat.iter k div_1000 num) = false).
Proof.
  destruct (human_loop_spec abs_ge_1000 div_1000 (List.length units) num 0%nat
              ltac:(lia) ltac:(cbn; lia))
    as (k & Heq & Hle & Hbefore & Hafter).
  exists k. unfold human_format. rewrite Heq. cbn [Nat.add].
  repeat split; auto.
Qed.

(** ** More on [validate_dates] *)

(** X20.  A single day cannot be asked for: whatever the argument, giving
    it as both start and end is rejected. *)
Theorem same_day_is_rejected E day_str :
  validate_dates E day_str day_str <> None.
Proof.
  intros H. apply validate_dates_accepts in H
    as (ds & de & Hs & He & _ & _ & Hlt & _).
  rewrite Hs in He. injection He as <-.
  now rewrite date_ltb_irrefl in Hlt.
Qed.

(** ** Ties at the cut-off *)

Section StableSort.
Context {A : Type} (leb : A -> A -> bool) (before : A -> A -> Prop).
Hypothesis leb_total : forall x y, leb x y = false -> leb y x = true.
Hypothesis leb_trans :
  forall x y z, leb x y = true -> leb y z = true -> leb x z = true.

(** Sorted by [leb], and in the original order where [leb] ties. *)
Let lex (x y : A) : Prop :=
  leb x y = true /\ (leb y x = true -> before x y).

Lemma insert_stable x l :
  StronglySorted lex l -> Forall (before x) l ->
  StronglySorted lex (insert leb x l).
Proof.
  induction 1 as [|y t Hs IH Hall]; intros Hx; cbn [insert].
  - repeat constructor.
  - inversion Hx as [|? ? Hxy Hxt]; subst.
    destruct (leb x y) eqn:Hle.
    + constructor; [constructor; assumption|].
      constructor; [split; auto|].
      rewrite Forall_forall in *. intros z Hz. split; [|auto].
      destruct (Hall z Hz) as [Hyz _]. eauto.
    + constructor; [auto|].
      apply (Permutation_Forall (Permutation_sym (insert_perm leb x t))).
      constructor; [|assumption].
      split; [now apply leb_total|]. intros H. congruence.
Qed.

Lemma isort_stable l :
  StronglySorted before l -> StronglySorted lex (isort leb l).
Proof.
  induction 1 as [|x t Hs IH Hall]; [constructor|].
  unfold isort in *. cbn [fold_right]. apply insert_stable; [assumption|].
  apply (Permutation_Forall (Permutation_sym (isort_perm leb t))).
  exact Hall.
Qed.
End StableSort.

Lemma string_leb_trans s1 : forall s2 s3,
  String.leb s1 s2 = true -> String.leb s2 s3 = true ->
  String.leb s1 s3 = true.
Proof.
  unfold String.leb.
  induction s1 as [|a s1 IH]; intros [|b s2] [|c s3];
    cbn [String.compare]; try easy.
  unfold Ascii.compare.
  destruct (N.compare_spec (N_of_ascii a) (N_of_ascii b)),
    (N.compare_spec (N_of_ascii b) (N_of_ascii c)),
    (N.compare_spec (N_of_ascii a) (N_of_ascii c));
    try lia; try easy.
  apply IH.
Qed.

Lemma string_leb_false s1 s2 :
  String.leb s1 s2 = false -> String.leb s2 s1 = true.
Proof.
  intros H. destruct (String.leb_total s1 s2) as [H'|H']; congruence.
Qed.

Lemma keyed_sorted {K} (R : K -> K -> Prop) (g : K -> Z) keys :
  StronglySorted R keys ->
  StronglySorted (fun p q : K * Z => R (fst p) (fst q))
    (map (fun k => (k, g k)) keys).
Proof.
  induction 1 as [|k t Hs IH Hall]; cbn [map]; constructor; [assumption|].
  apply Forall_forall. intros q Hq. apply in_map_iff in Hq as (k' & <- & Hk').
  rewrite Forall_forall in Hall. cbn [fst]. now apply Hall.
Qed.

Lemma top_articles_stable df :
  exists sorted,
    Permutation sorted (groupby_article series_sum df)
    /\ top_articles_of df = map fst (firstn TOP_ARTICLES_COUNT sorted)
    /\ StronglySorted
         (fun x y : string * Z =>
            (snd y <=? snd x) = true
            /\ ((snd x <=? snd y) = true ->
                String.leb (fst x) (fst y) = true))
         sorted.
Proof.
  exists (isort (fun a b => snd b <=? snd a) (groupby_article series_sum df)).
  split; [apply isort_perm|]. split; [reflexivity|].
  apply (isort_stable (fun a b : string * Z => snd b <=? snd a)
           (fun p q => String.leb (fst p) (fst q) = true)).
  - intros x y. apply by_value_total.
  - intros x y z. apply by_value_trans.
  - unfold groupby_article, groupby.
    apply (keyed_sorted (fun a b => String.leb a b = true)
             (fun k => series_sum
                         (map row_views
                            (filter (fun r => if string_dec (row_article r) k
                                              then true else false) df)))).
    apply isort_sorted.
    + apply string_leb_false.
    + intros x y z. apply string_leb_trans.
Qed.

(** X21.  Ties at the cut-off go to the name that sorts first: when a row
    is kept and a fetched row is dropped although their articles have the
    same total of views, the kept article's name is the smaller of the two
    in string order. *)
Theorem ties_keep_first_name E start_date end_date dates df_top m :
  outcome_of (date_range E start_date end_date) = Ok dates ->
  outcome_of (process_data E start_date end_date) = Ok (Some df_top, m) ->
  forall kept dropped,
    In kept df_top ->
    In dropped (all_rows E dates) -> ~ In dropped df_top ->
    total_views (all_rows E dates) (row_article kept)
    = total_views (all_rows E dates) (row_article dropped) ->
    String.leb (row_article kept) (row_article dropped) = true
    /\ row_article kept <> row_article dropped.
Proof.
  intros Hr Hp kept dropped Hk Hd Hnd Htie.
  destruct (process_data_some _ _ _ _ _ _ Hr Hp) as (_ & -> & _).
  set (df := all_rows E dates) in *.
  apply filter_top_In in Hk as [_ Hk].
  assert (Hout : ~ In (row_article dropped) (top_articles_of df))
    by (intros H; apply Hnd, filter_top_In; auto).
  split; [|intros Heq; apply Hout; now rewrite <- Heq].
  destruct (top_articles_stable df) as (sorted & Hperm & Htop & Hsorted).
  rewrite Htop in Hk, Hout.
  apply in_map_iff in Hk as ([a va] & Ha & Hina). cbn [fst] in Ha. subst a.
  destruct (groupby_lookup string_dec String.leb row_article series_sum df
              (row_article dropped) (in_map _ _ _ Hd)) as (vb & Hinb).
  fold (groupby_article series_sum df) in Hinb.
  pose proof (groupby_article_value series_sum df _ vb Hinb) as Hvb.
  assert (Hva : va = total_views df (row_article kept)).
  { apply (groupby_article_value series_sum df _ va).
    eapply Permutation_in; [exact Hperm|]. eapply in_firstn_in; exact Hina. }
  assert (Hsk : In (row_article dropped, vb) (skipn TOP_ARTICLES_COUNT sorted)).
  { apply (Permutation_in _ (Permutation_sym Hperm)) in Hinb.
    rewrite <- (firstn_skipn TOP_ARTICLES_COUNT sorted) in Hinb.
    apply in_app_or in Hinb as [Hin|Hin]; [|assumption].
    exfalso. apply Hout. apply in_map_iff.
    exists (row_article dropped, vb). auto. }
  destruct (sorted_firstn_skipn _ sorted Hsorted _ _ _ Hina Hsk) as [_ Hlex].
  cbn [fst snd] in Hlex. apply Hlex. apply Z.leb_le.
  fold (total_views df (row_article dropped)) in Hvb. lia.
Qed.

Lemma ties_keep_first_name_witness :
  let kept := set_date (mkdate 2024 1 1) (Tied.entry 7) in
  let dropped := set_date (mkdate 2024 1 2) (Tied.entry 8) in
  In kept Tied.frame /\ In dropped Tied.rows /\ ~ In dropped Tied.frame
  /\ total_views Tied.rows (row_article kept)
     = total_views Tied.rows (row_article dropped)
  /\ String.leb (row_article kept) (row_article dropped) = true
  /\ row_article kept <> row_article dropped.
Proof.
  intros kept dropped.
  assert (Hk : In kept Tied.frame)
    by (vm_compute; repeat (first [left; reflexivity|right])).
  assert (Hd : In dropped Tied.rows)
    by (vm_compute; repeat (first [left; reflexivity|right])).
  assert (Hnd : ~ In dropped Tied.frame).
  { vm_compute. intros H.
    repeat (destruct H as [H|H]; [discriminate|]). exact H. }
  assert (Htie : total_views Tied.rows (row_article kept)
                 = total_views Tied.rows (row_article dropped))
    by (vm_compute; reflexivity).
  split; [exact Hk|]. split; [exact Hd|]. split; [exact Hnd|].
  split; [exact Htie|].
  apply (ties_keep_first_name Tied.env "20240101" "20240102" Tied.days
           Tied.frame (compute_metrics Tied.rows));
    [vm_compute; reflexivity|vm_compute; reflexivity|exact Hk|exact Hd
    |exact Hnd|exact Htie].
Defined.

(** * The model at work on the sample environment *)

Example ord_2015_07_01 : toordinal API_START_DATE = 735780.
Proof. reflexivity. Qed.

Example ymd_leap_end :
  fromordinal (toordinal (mkdate 2000 12 31)) = mkdate 2000 12 31.
Proof. reflexivity. Qed.

Example strptime_plain :
  Sample.strptime_ascii "20240229" = Some (mkdate 2024 2 29).
Proof. reflexivity. Qed.

Example strptime_no_such_day : Sample.strptime_ascii "20230229" = None.
Proof. reflexivity. Qed.

Example strptime_short_month :
  Sample.strptime_ascii "2024115" = Some (mkdate 2024 11 5).
Proof. reflexivity. Qed.

Example validate_future :
  validate_dates Sample.env "20240101" "20250103"
  = Some "Error: Dates must be strictly before 2024-03-01 (no today or future dates)".
Proof. vm_compute. reflexivity. Qed.

Example validate_too_early :
  validate_dates Sample.env "20140101" "20140103"
  = Some "Error: Dates must be >= 2015-07-01".
Proof. vm_compute. reflexivity. Qed.

Example validate_too_long :
  validate_dates Sample.env "20230101" "20240103"
  = Some "Error: Date range must be <= 365 days".
Proof. vm_compute. reflexivity. Qed.

Example validate_bad_format :
  validate_dates Sample.env "2024-01-01" "20240103"
  = Some "Error: Invalid date format. Use YYYYMMDD".
Proof. vm_compute. reflexivity. Qed.

Example sample_run_requests :
  http_gets (events (main Sample.env "20240101" "20240103"))
  = ["https://wikimedia.org/api/rest_v1/metrics/pageviews/top/en.wikipedia.org/all-access/2024/01/01";
     "https://wikimedia.org/api/rest_v1/metrics/pageviews/top/en.wikipedia.org/all-access/2024/01/02";
     "https://wikimedia.org/api/rest_v1/metrics/pageviews/top/en.wikipedia.org/all-access/2024/01/03"].
Proof. vm_compute. reflexivity. Qed.

Example sample_run_top :
  top_articles_of
    (all_rows Sample.env [mkdate 2024 1 1; mkdate 2024 1 2; mkdate 2024 1 3])
  = ["Page_0"; "Page_5"; "Page_21"; "Page_1"; "Page_2"; "Page_3"; "Page_4";
     "Page_6"; "Page_7"; "Page_8"; "Page_9"; "Page_10"; "Page_11"; "Page_12";
     "Page_13"; "Page_14"; "Page_15"; "Page_16"; "Page_17"; "Page_18"].
Proof. vm_compute. reflexivity. Qed.

(** The metrics of the sample run count all 22 articles, not the 20 kept. *)
Example sample_run_metrics :
  let df :=
    all_rows Sample.env [mkdate 2024 1 1; mkdate 2024 1 2; mkdate 2024 1 3] in
  compute_metrics df = (Some 5000, Some (99300 # 2), Some 22%nat)
  /\ nunique (map row_article
                (filter (fun r => isin (top_articles_of df) (row_article r)) df))
     = 20%nat.
Proof. vm_compute. split; reflexivity. Qed.

(** With every total equal, the twenty names that sort first are kept. *)
Example tied_run_top :
  top_articles_of Tied.rows
  = ["Page_0"; "Page_1"; "Page_10"; "Page_11"; "Page_12"; "Page_13";
     "Page_14"; "Page_15"; "Page_16"; "Page_17"; "Page_18"; "Page_19";
     "Page_2"; "Page_20"; "Page_21"; "Page_3"; "Page_4"; "Page_5"; "Page_6";
     "Page_7"].
Proof. vm_compute. reflexivity. Qed.

Example sample_figure_axis :
  (col_order SampleRun.figure, col_wrap SampleRun.figure,
   title_period SampleRun.figure, date_format SampleRun.figure,
   major_locator SampleRun.figure)
  = (["Page_0"; "Page_1"; "Page_2"; "Page_3"; "Page_4"; "Page_5"; "Page_6";
      "Page_7"; "Page_8"; "Page_9"; "Page_10"; "Page_11"; "Page_12";
      "Page_13"; "Page_14"; "Page_15"; "Page_16"; "Page_17"; "Page_18";
      "Page_21"],
     5, "2024-01-01 to 2024-01-03", "%m/%d", DayLocator 1).
Proof. vm_compute. reflexivity. Qed.
